(** * backend/server.py: the counting state of the traffic server

    A shallow embedding of the shared counting state of [server.py] and of
    the code that touches it: the upload endpoint [upload_video] and the
    body of the processing loop [process_video].

    - Python integers are [Z]; the detector's coordinates are finite floats
      and are carried as the rationals they denote ([Q]); the code only
      compares them, and comparison of finite floats is exact.
    - [track_history] (a [defaultdict(list)]) is a [gmap Z (list pos)],
      [cumulative_counts] (a [dict]) a [gmap string Z] whose subscription
      fails on a missing key (Python raises [KeyError]: [None] here), and
      [counted_ids] a [gset Z].
    - Every [with state_lock:] block is one function on the shared state.
      The loop body composes them in program order. The loop is an
      eventlet green thread that yields only in [socketio.sleep] (line
      114), so an upload is served between two iterations; the schedules
      of the model also allow an upload between two blocks of one frame (a
      slot of the frame's schedule), which makes the invariants proved
      over all schedules hold a fortiori. The schedules the loop can
      receive are the [cooperative] ones. *)

From Stdlib Require Import ZArith QArith Qround Ascii String.
From stdpp Require Import gmap strings list fin_maps.

Local Open Scope string_scope.
Local Open Scope list_scope.
Local Open Scope Z_scope.

(** ** Configuration *)

(** [TARGET_CLASSES], in the order of the dict literal. *)
Definition TARGET_CLASSES_items : list (Z * string) :=
  [ (0, "Person"); (1, "Bicycle"); (2, "Car");
    (3, "Motorcycle"); (5, "Bus"); (7, "Truck") ].

Definition TARGET_CLASSES : gmap Z string := list_to_map TARGET_CLASSES_items.

(** [TARGET_CLASSES.values()] *)
Definition class_names : list string := TARGET_CLASSES_items.*2.

(** [{name: 0 for name in TARGET_CLASSES.values()}] *)
Definition zero_counts : gmap string Z :=
  list_to_map ((λ name, (name, 0)) <$> class_names).

(** ** Shared state (protected by [state_lock]) *)

(** A recorded centroid [(cx, cy)]. *)
Definition pos : Type := Q * Q.

Record shared := Shared {
  current_video_source : string;
  video_needs_reset : bool;
  track_history : gmap Z (list pos);
  cumulative_counts : gmap string Z;
  counted_ids : gset Z
}.

Definition set_history (h : gmap Z (list pos)) (s : shared) : shared :=
  Shared (current_video_source s) (video_needs_reset s) h
         (cumulative_counts s) (counted_ids s).

(** The module-level initial values. *)
Definition initial_shared : shared :=
  Shared "traffic_video.mp4" false ∅ zero_counts ∅.

(** ** Crossing test and traffic status (pure parts of the loop body) *)

(** [l[-k]] for [k >= 1]; Python raises [IndexError] when [k > len(l)]. *)
Definition neg_index {A} (l : list A) (k : nat) : option A :=
  if decide (k ≤ length l)%nat then l !! (length l - k)%nat else None.

Definition Qltb (a b : Q) : bool := negb (Qle_bool b a).

(** Lines 168-173: [len(track) > 1] and [prev_y < line_y <= curr_y]. *)
Definition crossing (track : list pos) (line_y : Z) : bool :=
  if decide (1 < length track)%nat then
    match neg_index track 2, neg_index track 1 with
    | Some p, Some c =>
        let prev_y := p.2 in
        let curr_y := c.2 in
        Qltb prev_y (inject_Z line_y) && Qle_bool (inject_Z line_y) curr_y
    | _, _ => false
    end
  else false.

(** Lines 164-166: [track.append(p)], then [track.pop(0)] if longer than 30. *)
Definition append_bounded (track : list pos) (p : pos) : list pos :=
  let track := (track ++ [p])%list in
  if decide (30 < length track)%nat then drop 1 track else track.

(** The UTF-8 bytes of U+1F6A8, the first character of the HIGH message. *)
Definition siren : string :=
  String "240"%char (String "159"%char (String "154"%char
    (String "168"%char EmptyString))).

Record status := Status {
  level : string;
  color : string;
  message : string;
  density : Z
}.

(** Lines 215-226 and the ["status"] object of lines 238-243. *)
Definition traffic_status (total_cumulative : Z) : status :=
  if decide (total_cumulative ≤ 10) then
    Status "LOW" "green" "Smooth Traffic Flow" total_cumulative
  else if decide (total_cumulative > 10 ∧ total_cumulative ≤ 20) then
    Status "MEDIUM" "orange" "Moderate Traffic Volume" total_cumulative
  else
    Status "HIGH" "red" (siren +:+ " Heavy Traffic Volume") total_cumulative.

(** Lines 206-212; each subscription may raise [KeyError]. *)
Definition total_cumulative (counts : gmap string Z) : option Z :=
  car ← counts !! "Car";
  bus ← counts !! "Bus";
  truck ← counts !! "Truck";
  person ← counts !! "Person";
  bicycle ← counts !! "Bicycle";
  Some (car + bus + truck + person + bicycle).

(** ** The detector boundary and the rendered overlay *)

(** One row of [zip(boxes, track_ids, clss)]: the [xywh] box, the tracker's
    id and the class index. *)
Record detection := Detection {
  box : Q * Q * Q * Q;
  track_id : Z;
  cls : Z
}.

(** What the loop draws on the frame before it is encoded. *)
Inductive draw :=
| CountingLine (line_y : Z)
| CountedLine (line_y : Z)
| BoxLabel (b : Q * Q * Q * Q) (counted : bool) (track_id : Z)
           (class_name : string).

(** The loop's per-frame local variables. *)
Record locals := Locals {
  current_density : Z;
  active_ids : gset Z;
  overlay : list draw
}.

(** The payload of [socketio.emit("video_data", ...)]; [image] is the frame
    with the overlay drawn on it. *)
Record video_data := VideoData {
  image : list draw;
  counts : gmap string Z;
  data_status : status
}.

(** ** The locked blocks of the processing loop *)

(** Lines 162-183: history update, crossing test and counting of one
    detection. The second component is what the block draws. *)
Definition track_and_count (line_y : Z) (tid : Z) (class_name : string)
    (p : pos) (s : shared) : option (shared * list draw) :=
  let track := append_bounded (default [] (track_history s !! tid)) p in
  let s := set_history (<[tid := track]> (track_history s)) s in
  if crossing track line_y then
    if decide (tid ∈ counted_ids s) then Some (s, [])
    else
      n ← cumulative_counts s !! class_name;
      Some (Shared (current_video_source s) (video_needs_reset s)
                   (track_history s)
                   (<[class_name := n + 1]> (cumulative_counts s))
                   ({[tid]} ∪ counted_ids s),
            [CountedLine line_y])
  else Some (s, []).

(** Lines 153-199: the body of the [for] loop for one detection. *)
Definition detection_body (line_y : Z) (d : detection)
    (st : shared * locals) : option (shared * locals) :=
  let '(s, l) := st in
  match TARGET_CLASSES !! cls d with
  | None => Some (s, l)
  | Some class_name =>
      let active := {[track_id d]} ∪ active_ids l in
      let '(x, y, w, h) := box d in
      '(s', drawn) ← track_and_count line_y (track_id d) class_name (x, y) s;
      let label :=
        BoxLabel (box d) (bool_decide (track_id d ∈ counted_ids s'))
                 (track_id d) class_name in
      Some (s', Locals (current_density l) active
                       (overlay l ++ drawn ++ [label]))
  end.

(** Lines 202-205: delete the history of every id that is not active. *)
Definition cleanup (active : gset Z) (s : shared) : shared :=
  let keys := (map_to_list (track_history s)).*1 in
  set_history
    (foldl (λ h tid, if decide (tid ∈ active) then h else delete tid h)
           (track_history s) keys)
    s.

(** Line 151: [sum(1 for c in clss if c in [2,3,5,7])]. *)
Definition vehicle_count (clss : list Z) : Z :=
  Z.of_nat (length (filter (λ c, c ∈ [2; 3; 5; 7]) clss)).

(** ** The upload endpoint *)

Record file_storage := FileStorage { filename : string }.

Record request := Request { files : gmap string file_storage }.

Inductive response :=
| Json (key value : string) (code : Z)
| Unhandled.

Definition UPLOAD_FOLDER : string := "uploads".

(** Lines 94-99, the locked block of a successful upload. *)
Definition switch_source (filepath : string) : shared :=
  Shared filepath true ∅ zero_counts ∅.

(** ** A concrete boundary, for running the model

    Names that are already safe are returned unchanged by
    [secure_filename]; [os.path.join] on POSIX; a disk that accepts every
    file; videos of height 150, which puts the line at y = 100. *)

Definition plain_name (name : string) : string := name.

Definition posix_join (a b : string) : string := a +:+ "/" +:+ b.

Definition disk_ok (_ : file_storage) (_ : string) : bool := true.

Definition height_150 (_ : string) : Z := 150.

(** A disk on which [file.save] fails. *)
Definition disk_full (_ : file_storage) (_ : string) : bool := false.

(** A detection of track [tid] with class index [c], centred at (50, y). *)
Definition at_y (tid c : Z) (y : Q) : detection :=
  Detection (50%Q, y, 20%Q, 20%Q) tid c.

(** A state in which track 7 was last seen above the line and track 8 far
    above it. *)
Definition two_tracks : shared :=
  Shared "traffic_video.mp4" false
         {[7 := [(50, 95)%Q]; 8 := [(50, 40)%Q]]} zero_counts ∅.

(** A state well into an epoch: 3 cars, 2 buses and 4 motorcycles counted,
    track 7 last seen just above the line. *)
Definition busy : shared :=
  Shared "traffic_video.mp4" false {[7 := [(50, 95)%Q]]}
         (<["Car" := 3]> (<["Bus" := 2]> (<["Motorcycle" := 4]> zero_counts)))
         {[1; 2; 3; 4; 5; 6; 10; 11; 12]}.

(** An upload request whose "video" part has the given filename. *)
Definition upload_of (name : string) : request :=
  Request {["video" := FileStorage name]}.

Section Server.

(** The boundary the code calls into: werkzeug's [secure_filename],
    [os.path.join], whether [file.save] returns (it raises otherwise and
    the request ends there), and the frame height OpenCV reports for the
    file at a path (0 when it cannot be opened). *)
Variable secure_filename : string → string.
Variable path_join : string → string → string.
Variable save : file_storage → string → bool.
Variable frame_height : string → Z.

(** Lines 79-102. *)
Definition upload_video (req : request) (s : shared) : response * shared :=
  match files req !! "video" with
  | None => (Json "error" "No file uploaded" 400, s)
  | Some file =>
      if decide (filename file = "") then
        (Json "error" "No file selected" 400, s)
      else
        let name := secure_filename (filename file) in
        let filepath := path_join UPLOAD_FOLDER name in
        if save file filepath then
          (Json "message" "Upload successful" 200, switch_source filepath)
        else (Unhandled, s)
  end.

(** ** The loop's own state: the open capture and the counting line *)

Record capture := Capture { cap_source : string; cap_height : Z }.

(** [cv2.VideoCapture(path)] *)
Definition VideoCapture (path : string) : capture :=
  Capture path (frame_height path).

(** [int(cap.get(cv2.CAP_PROP_FRAME_HEIGHT) // 1.5)] *)
Definition line_of (c : capture) : Z :=
  Qfloor (inject_Z (cap_height c) / (3 # 2)).

Record loop_state := LoopState { cap : capture; line_y : Z }.

(** Lines 110-111. *)
Definition start (s : shared) : loop_state :=
  let cap := VideoCapture (current_video_source s) in
  LoopState cap (line_of cap).

(** Lines 116-121: the reset check at the top of every iteration. *)
Definition reset_check (s : shared) (l : loop_state) : shared * loop_state :=
  if video_needs_reset s then
    let cap := VideoCapture (current_video_source s) in
    (Shared (current_video_source s) false (track_history s)
            (cumulative_counts s) (counted_ids s),
     LoopState cap (line_of cap))
  else (s, l).

(** ** One iteration of [while True] *)

(** The schedule of a frame: its detections in order, and the upload
    requests served between two of the loop's locked blocks. *)
Inductive slot :=
| Det (d : detection)
| Up (req : request).

Definition slot_classes (slots : list slot) : list Z :=
  omap (λ sl, match sl with Det d => Some (cls d) | Up _ => None end) slots.

Fixpoint run_slots (line_y : Z) (slots : list slot) (st : shared * locals)
    : option (shared * locals) :=
  match slots with
  | [] => Some st
  | Det d :: rest =>
      st' ← detection_body line_y d st; run_slots line_y rest st'
  | Up req :: rest =>
      run_slots line_y rest ((upload_video req st.1).2, st.2)
  end.

(** Lines 206-245: the total, the status and the emitted record. *)
Definition finish_frame (s : shared) (l : locals) : option video_data :=
  total ← total_cumulative (cumulative_counts s);
  Some (VideoData (overlay l) (cumulative_counts s) (traffic_status total)).

(** What [cap.read()] and the tracker deliver in one iteration: no frame
    (end of stream, the loop rewinds and continues), or a frame with its
    schedule (no tracked box gives the empty schedule). *)
Inductive frame_input :=
| ReadFail
| Frame (slots : list slot).

(** Lines 144-245 for a frame that was read; [density] is the value the
    local [current_density] holds from line 151 on. *)
Definition frame_body (line_y : Z) (density : Z) (slots : list slot)
    (s : shared) : option (shared * video_data) :=
  let loc := Locals density ∅ [CountingLine line_y] in
  '(s, loc) ← run_slots line_y slots (s, loc);
  let s := cleanup (active_ids loc) s in
  out ← finish_frame s loc;
  Some (s, out).

Definition iteration (f : frame_input) (s : shared) (l : loop_state)
    : option (shared * loop_state * option video_data) :=
  let '(s, l) := reset_check s l in
  match f with
  | ReadFail => Some (s, l, None)
  | Frame slots =>
      '(s, out) ← frame_body (line_y l) (vehicle_count (slot_classes slots))
                             slots s;
      Some (s, l, Some out)
  end.

(** ** The server: requests and loop iterations in the order they run *)

Inductive input :=
| Connect
| Upload (req : request)
| Iterate (f : frame_input).

(** The shared state and, once a client has connected, the loop's. *)
Record server := Server { sh : shared; worker : option loop_state }.

Definition initial_server : server := Server initial_shared None.

Definition step (i : input) (sv : server)
    : option (server * option video_data) :=
  match i, worker sv with
  | Connect, None => Some (Server (sh sv) (Some (start (sh sv))), None)
  | Connect, Some _ => Some (sv, None)
  | Upload req, _ =>
      Some (Server (upload_video req (sh sv)).2 (worker sv), None)
  | Iterate _, None => Some (sv, None)
  | Iterate f, Some l =>
      '(s, l, out) ← iteration f (sh sv) l;
      Some (Server s (Some l), out)
  end.

Fixpoint run (ins : list input) (sv : server)
    : option (server * list video_data) :=
  match ins with
  | [] => Some (sv, [])
  | i :: rest =>
      '(sv, out) ← step i sv;
      '(sv, outs) ← run rest sv;
      Some (sv, from_option (λ o, [o]) [] out ++ outs)
  end.

(** ** Predicates the properties are stated with *)

(** [sum(cumulative_counts.values())] *)
Definition sum_counts (c : gmap string Z) : Z :=
  map_fold (λ _ v acc, v + acc) 0 c.

(** The dict has exactly the six class names as keys. *)
Definition counts_ok (s : shared) : Prop :=
  dom (cumulative_counts s) = list_to_set class_names.

(** No window holds more than 30 positions. *)
Definition windows_bounded (s : shared) : Prop :=
  ∀ tid w, track_history s !! tid = Some w → (length w ≤ 30)%nat.

(** Every counted id stands for exactly one unit of the counts. *)
Definition counted_once (s : shared) : Prop :=
  sum_counts (cumulative_counts s) = Z.of_nat (size (counted_ids s)).

(** Between [s] and [s'] nothing was uncounted: the counted ids are kept
    and the sum of the counts did not go down. *)
Definition grows (s s' : shared) : Prop :=
  counted_ids s ⊆ counted_ids s'
  ∧ sum_counts (cumulative_counts s) ≤ sum_counts (cumulative_counts s').

Definition inv (s : shared) : Prop :=
  counts_ok s ∧ windows_bounded s ∧ counted_once s.

(** Inputs of one epoch: no upload is served, neither between iterations
    nor inside a frame. *)
Definition quiet_slot (sl : slot) : bool :=
  match sl with Det _ => true | Up _ => false end.

Definition quiet (i : input) : bool :=
  match i with
  | Connect => true
  | Upload _ => false
  | Iterate ReadFail => true
  | Iterate (Frame slots) => forallb quiet_slot slots
  end.

(** The locals with another value in [current_density]. *)
Definition with_density (n : Z) (l : locals) : locals :=
  Locals n (active_ids l) (overlay l).


(** No count is negative. *)
Definition counts_nonneg (s : shared) : Prop :=
  ∀ name v, cumulative_counts s !! name = Some v → 0 ≤ v.

(** The slots that can change anything: uploads, and detections whose class
    is a key of [TARGET_CLASSES]. *)
Definition keep_slot (sl : slot) : bool :=
  match sl with
  | Det d => bool_decide (is_Some (TARGET_CLASSES !! cls d))
  | Up _ => true
  end.

(** The track ids of the recognized detections of a schedule. *)
Definition frame_ids (slots : list slot) : gset Z :=
  list_to_set
    (omap (λ sl, match sl with
                 | Det d => match TARGET_CLASSES !! cls d with
                            | Some _ => Some (track_id d)
                            | None => None
                            end
                 | Up _ => None
                 end) slots).

(** How often the green line was drawn. *)
Fixpoint counted_lines (o : list draw) : Z :=
  match o with
  | [] => 0
  | CountedLine _ :: o => 1 + counted_lines o
  | _ :: o => counted_lines o
  end.

(** The loop's capture and line agree with each other, and with the shared
    source path whenever no reset is pending. *)
Definition loop_bound (sv : server) : Prop :=
  ∀ l, worker sv = Some l →
       cap l = VideoCapture (cap_source (cap l))
       ∧ line_y l = line_of (cap l)
       ∧ (video_needs_reset (sh sv) = false →
          cap_source (cap l) = current_video_source (sh sv)).



(** ** The crossing test *)

Lemma Qltb_lt (a b : Q) : Qltb a b = true ↔ (a < b)%Q.
Proof.
  unfold Qltb. rewrite negb_true_iff, <- not_true_iff_false, Qle_bool_iff.
  split; [apply Qnot_le_lt | apply Qlt_not_le].
Qed.

Lemma neg_index_snoc1 {A} (l : list A) (x : A) :
  neg_index (l ++ [x]) 1 = Some x.
Proof.
  unfold neg_index. rewrite length_app. simpl.
  case_decide; [| lia].
  replace (length l + 1 - 1)%nat with (length l + 0)%nat by lia.
  by rewrite lookup_app_r, Nat.add_0_r, Nat.sub_diag by lia.
Qed.

Lemma neg_index_snoc2 {A} (l : list A) (x y : A) :
  neg_index (l ++ [x; y]) 2 = Some x.
Proof.
  unfold neg_index. rewrite length_app. simpl.
  case_decide; [| lia].
  replace (length l + 2 - 2)%nat with (length l) by lia.
  by rewrite lookup_app_r, Nat.sub_diag by lia.
Qed.

Lemma two_last {A} (l : list A) :
  (1 < length l)%nat → ∃ pre x y, l = pre ++ [x; y].
Proof.
  intros Hlen.
  destruct l as [| y l' _] using rev_ind; [simpl in Hlen; lia |].
  destruct l' as [| x pre _] using rev_ind.
  - simpl in Hlen. lia.
  - exists pre, x, y. by rewrite <- app_assoc.
Qed.

Lemma crossing_snoc2 (pre : list pos) (p c : pos) (line : Z) :
  crossing (pre ++ [p; c]) line
  = Qltb p.2 (inject_Z line) && Qle_bool (inject_Z line) c.2.
Proof.
  unfold crossing. case_decide as Hlen.
  - rewrite neg_index_snoc2.
    replace (pre ++ [p; c]) with ((pre ++ [p]) ++ [c])
      by (by rewrite <- app_assoc).
    by rewrite neg_index_snoc1.
  - rewrite length_app in Hlen. simpl in Hlen. lia.
Qed.

Lemma crossing_short (track : list pos) (line : Z) :
  (length track < 2)%nat → crossing track line = false.
Proof. intros Hlen. unfold crossing. case_decide; [lia | done]. Qed.

Lemma crossing_iff (track : list pos) (line : Z) :
  crossing track line = true ↔
  ∃ pre p c, track = pre ++ [p; c]
             ∧ (p.2 < inject_Z line)%Q ∧ (inject_Z line <= c.2)%Q.
Proof.
  split.
  - intros Hc.
    destruct (decide (1 < length track)%nat) as [Hlen | Hlen].
    + destruct (two_last track Hlen) as (pre & p & c & ->).
      rewrite crossing_snoc2, andb_true_iff, Qltb_lt, Qle_bool_iff in Hc.
      by exists pre, p, c.
    + rewrite crossing_short in Hc by lia. done.
  - intros (pre & p & c & -> & Hp & Hc).
    rewrite crossing_snoc2, andb_true_iff, Qltb_lt, Qle_bool_iff. done.
Qed.

(** ** The bounded window *)

Lemma append_bounded_below (track : list pos) (p : pos) :
  (length track < 30)%nat → append_bounded track p = track ++ [p].
Proof.
  intros Hlen. unfold append_bounded. case_decide as H; [| done].
  rewrite length_app in H. simpl in H. lia.
Qed.

Lemma append_bounded_full (track : list pos) (p : pos) :
  (30 ≤ length track)%nat → append_bounded track p = drop 1 track ++ [p].
Proof.
  intros Hlen. unfold append_bounded. case_decide as H.
  - rewrite drop_app_le by lia. done.
  - rewrite length_app in H. simpl in H. lia.
Qed.

Lemma append_bounded_length (track : list pos) (p : pos) :
  (length track ≤ 30)%nat → (length (append_bounded track p) ≤ 30)%nat.
Proof.
  intros Hlen. unfold append_bounded. case_decide as H.
  - rewrite length_drop, length_app in *. simpl in *. lia.
  - lia.
Qed.

Lemma append_bounded_last2 (pre : list pos) (q p : pos) :
  ∃ pre', append_bounded (pre ++ [q]) p = pre' ++ [q; p].
Proof.
  unfold append_bounded. rewrite <- app_assoc. simpl.
  case_decide as H.
  - destruct pre as [| x pre].
    + simpl in H. lia.
    + exists pre. done.
  - by exists pre.
Qed.

(** ** The counts dictionary *)

Lemma class_name_known (c : Z) (name : string) :
  TARGET_CLASSES !! c = Some name → name ∈ class_names.
Proof.
  intros H. apply elem_of_list_to_map_2 in H.
  apply list_elem_of_fmap. by exists (c, name).
Qed.

Lemma counts_ok_lookup (s : shared) (name : string) :
  counts_ok s → name ∈ class_names → is_Some (cumulative_counts s !! name).
Proof.
  intros Hok Hin. apply elem_of_dom. rewrite Hok.
  by apply elem_of_list_to_set.
Qed.

Lemma zero_counts_dom : dom zero_counts = list_to_set class_names.
Proof.
  unfold zero_counts. rewrite dom_list_to_map_L.
  by rewrite <- list_fmap_compose.
Qed.

Lemma sum_counts_insert (c : gmap string Z) (k : string) (n v : Z) :
  c !! k = Some n → sum_counts (<[k := v]> c) = sum_counts c - n + v.
Proof.
  intros Hk. unfold sum_counts.
  rewrite (map_fold_delete_L _ _ k n c); [| intros; lia | done].
  rewrite <- (insert_delete_eq c k v).
  rewrite map_fold_insert_L; [lia | intros; lia |].
  apply lookup_delete_eq.
Qed.

Lemma sum_counts_zero : sum_counts zero_counts = 0.
Proof. reflexivity. Qed.

(** ** One detection under the lock *)

Lemma track_and_count_counts (line tid : Z) (name : string) (p : pos)
    (s : shared) (n : Z) :
  let track := append_bounded (default [] (track_history s !! tid)) p in
  crossing track line = true → tid ∉ counted_ids s →
  cumulative_counts s !! name = Some n →
  track_and_count line tid name p s
  = Some (Shared (current_video_source s) (video_needs_reset s)
                 (<[tid := track]> (track_history s))
                 (<[name := n + 1]> (cumulative_counts s))
                 ({[tid]} ∪ counted_ids s),
          [CountedLine line]).
Proof.
  intros track Hc Hnot Hn. unfold track_and_count. fold track.
  rewrite Hc. simpl. rewrite decide_False by done. by rewrite Hn.
Qed.

Lemma track_and_count_skips (line tid : Z) (name : string) (p : pos)
    (s : shared) :
  let track := append_bounded (default [] (track_history s !! tid)) p in
  crossing track line = false ∨ tid ∈ counted_ids s →
  track_and_count line tid name p s
  = Some (set_history (<[tid := track]> (track_history s)) s, []).
Proof.
  intros track H. unfold track_and_count. fold track.
  destruct (crossing track line); [| done].
  destruct H as [H | H]; [done |]. simpl. by rewrite decide_True.
Qed.

Lemma track_and_count_inv (line tid : Z) (name : string) (p : pos)
    (s : shared) :
  name ∈ class_names → inv s →
  ∃ s' drawn, track_and_count line tid name p s = Some (s', drawn)
              ∧ inv s'
              ∧ current_video_source s' = current_video_source s
              ∧ video_needs_reset s' = video_needs_reset s
              ∧ counted_ids s ⊆ counted_ids s'
              ∧ sum_counts (cumulative_counts s)
                ≤ sum_counts (cumulative_counts s').
Proof.
  intros Hname (Hok & Hwin & Hone).
  set (track := append_bounded (default [] (track_history s !! tid)) p).
  assert (Hwin' : ∀ t w, <[tid := track]> (track_history s) !! t = Some w
                         → (length w ≤ 30)%nat).
  { intros t w. rewrite lookup_insert. case_decide as Ht.
    - intros [= <-]. apply append_bounded_length.
      destruct (track_history s !! tid) as [old |] eqn:Hold; simpl.
      + by eapply Hwin.
      + lia.
    - apply Hwin. }
  destruct (decide (crossing track line = true ∧ tid ∉ counted_ids s))
    as [[Hc Hnot] | Hno].
  - destruct (counts_ok_lookup s name Hok Hname) as [n Hn].
    eexists _, _. split; [by apply track_and_count_counts |].
    split; [split; [| split] |]; simpl.
    + unfold counts_ok in *. simpl. by rewrite dom_insert_lookup_L.
    + exact Hwin'.
    + unfold counted_once in *. simpl.
      rewrite (sum_counts_insert _ _ n) by exact Hn.
      rewrite size_union by set_solver. rewrite size_singleton. lia.
    + split; [reflexivity |]. split; [reflexivity |].
      split; [set_solver |].
      rewrite (sum_counts_insert _ _ n) by exact Hn. lia.
  - eexists _, _. split.
    { apply track_and_count_skips. fold track.
      destruct (crossing track line); [| by left].
      right. destruct (decide (tid ∈ counted_ids s)); [done |].
      exfalso. by apply Hno. }
    split; [split; [| split] |]; simpl.
    + exact Hok.
    + exact Hwin'.
    + exact Hone.
    + split; [reflexivity |]. split; [reflexivity |].
      split; [reflexivity | lia].
Qed.

Lemma grows_refl (s : shared) : grows s s.
Proof. split; [set_solver | lia]. Qed.

Lemma grows_trans (s1 s2 s3 : shared) :
  grows s1 s2 → grows s2 s3 → grows s1 s3.
Proof. intros [? ?] [? ?]. split; [set_solver | lia]. Qed.

(** ** Cleanup of inactive tracks *)

Lemma prune_fold_lookup (active : gset Z) (keys : list Z)
    (h : gmap Z (list pos)) (k : Z) :
  foldl (λ h tid, if decide (tid ∈ active) then h else delete tid h) h keys
    !! k
  = if decide (k ∈ keys ∧ k ∉ active) then None else h !! k.
Proof.
  revert h. induction keys as [| a keys IH]; intros h; cbn [foldl].
  - case_decide as H; [| done]. destruct H as [H _]. by apply not_elem_of_nil in H.
  - rewrite IH. destruct (decide (k ∈ keys ∧ k ∉ active)) as [[Hin Hout] | Hn].
    + rewrite decide_True; [done |]. split; [by right | done].
    + destruct (decide (a ∈ active)) as [Ha | Ha].
      * destruct (decide (k ∈ a :: keys ∧ k ∉ active)) as [[Hin Hout] | Hn'];
          [| done].
        apply elem_of_cons in Hin as [-> | Hin]; [done |].
        exfalso. by apply Hn.
      * destruct (decide (k = a)) as [-> | Hne].
        -- rewrite lookup_delete_eq. rewrite decide_True; [done |].
           split; [by left | done].
        -- rewrite lookup_delete_ne by done.
           rewrite decide_False; [done |]. intros [Hin Hout].
           apply elem_of_cons in Hin as [-> | Hin]; [done |].
           by apply Hn.
Qed.

Lemma cleanup_lookup (active : gset Z) (s : shared) (k : Z) :
  track_history (cleanup active s) !! k
  = if decide (k ∈ active) then track_history s !! k else None.
Proof.
  unfold cleanup. simpl. rewrite prune_fold_lookup.
  destruct (decide (k ∈ active)) as [Hk | Hk].
  - rewrite decide_False; [done |]. by intros [_ ?].
  - destruct (track_history s !! k) as [w |] eqn:Hw.
    + rewrite decide_True; [done |]. split; [| done].
      apply list_elem_of_fmap. exists (k, w). split; [done |].
      by apply elem_of_map_to_list.
    + by case_decide.
Qed.

Lemma cleanup_inv (active : gset Z) (s : shared) :
  inv s → inv (cleanup active s).
Proof.
  intros (Hok & Hwin & Hone). split; [| split].
  - exact Hok.
  - intros tid w. rewrite cleanup_lookup. case_decide; [| done]. apply Hwin.
  - exact Hone.
Qed.

(** ** Upload and reset check *)

Lemma switch_source_inv (filepath : string) : inv (switch_source filepath).
Proof.
  split; [| split].
  - apply zero_counts_dom.
  - intros tid w. unfold switch_source. simpl. by rewrite lookup_empty.
  - reflexivity.
Qed.

Lemma upload_video_cases (req : request) (s : shared) :
  (upload_video req s).2 = s
  ∨ ∃ filepath, upload_video req s
                = (Json "message" "Upload successful" 200,
                   switch_source filepath).
Proof.
  unfold upload_video. destruct (files req !! "video") as [file |]; [| by left].
  case_decide; [by left |].
  destruct (save file _); [right; by eexists | by left].
Qed.

Lemma upload_video_inv (req : request) (s : shared) :
  inv s → inv (upload_video req s).2.
Proof.
  intros Hs. destruct (upload_video_cases req s) as [-> | [fp ->]]; [done |].
  apply switch_source_inv.
Qed.

Lemma reset_check_inv (s : shared) (l : loop_state) :
  inv s → inv (reset_check s l).1.
Proof. intros Hs. unfold reset_check. by destruct (video_needs_reset s). Qed.

Lemma reset_check_grows (s : shared) (l : loop_state) :
  grows s (reset_check s l).1.
Proof.
  unfold reset_check. destruct (video_needs_reset s); simpl;
    (split; [set_solver | simpl; lia]).
Qed.

Lemma initial_shared_inv : inv initial_shared.
Proof.
  split; [| split].
  - apply zero_counts_dom.
  - intros tid w. unfold initial_shared. simpl. by rewrite lookup_empty.
  - reflexivity.
Qed.

(** ** Frames, iterations and runs keep the invariant *)

Lemma detection_body_inv (line : Z) (d : detection) (s : shared)
    (l : locals) :
  inv s →
  ∃ s' l', detection_body line d (s, l) = Some (s', l')
           ∧ inv s' ∧ grows s s'.
Proof.
  intros Hs. unfold detection_body.
  destruct (TARGET_CLASSES !! cls d) as [name |] eqn:Hcls.
  - destruct (box d) as [[[x y] w] h].
    destruct (track_and_count_inv line (track_id d) name (x, y) s
                (class_name_known _ _ Hcls) Hs)
      as (s' & drawn & -> & Hs' & _ & _ & Hsub & Hsum).
    simpl. eexists _, _. split; [done |]. split; [done |]. by split.
  - exists s, l. split; [done |]. split; [done |]. apply grows_refl.
Qed.

Lemma run_slots_inv (line : Z) (slots : list slot) (s : shared)
    (l : locals) :
  inv s →
  ∃ s' l', run_slots line slots (s, l) = Some (s', l')
           ∧ inv s'
           ∧ (forallb quiet_slot slots = true → grows s s').
Proof.
  revert s l. induction slots as [| sl slots IH]; intros s l Hs.
  - exists s, l. split; [done |]. split; [done |]. intros _. apply grows_refl.
  - destruct sl as [d | req]; cbn [run_slots].
    + destruct (detection_body_inv line d s l Hs)
        as (s1 & l1 & -> & Hs1 & Hg1).
      destruct (IH s1 l1 Hs1) as (s2 & l2 & Hrun & Hs2 & Hg2).
      exists s2, l2. split; [done |]. split; [done |].
      intros Hq. simpl in Hq. eapply grows_trans; [done |]. by apply Hg2.
    + destruct (IH (upload_video req s).2 l (upload_video_inv req s Hs))
        as (s2 & l2 & Hrun & Hs2 & _).
      exists s2, l2. split; [done |]. split; [done |].
      intros Hq. simpl in Hq. done.
Qed.

Lemma total_cumulative_ok (s : shared) :
  counts_ok s → is_Some (total_cumulative (cumulative_counts s)).
Proof.
  intros Hok. unfold total_cumulative.
  assert (H : ∀ name, name ∈ class_names →
                      is_Some (cumulative_counts s !! name))
    by (intros; by apply counts_ok_lookup).
  destruct (H "Car") as [? ->]; [apply (bool_decide_unpack _); by vm_compute |].
  destruct (H "Bus") as [? ->]; [apply (bool_decide_unpack _); by vm_compute |].
  destruct (H "Truck") as [? ->]; [apply (bool_decide_unpack _); by vm_compute |].
  destruct (H "Person") as [? ->]; [apply (bool_decide_unpack _); by vm_compute |].
  destruct (H "Bicycle") as [? ->]; [apply (bool_decide_unpack _); by vm_compute |].
  by eexists.
Qed.

Lemma frame_body_inv (line n : Z) (slots : list slot) (s : shared) :
  inv s →
  ∃ s' out, frame_body line n slots s = Some (s', out)
            ∧ inv s'
            ∧ (forallb quiet_slot slots = true → grows s s').
Proof.
  intros Hs. unfold frame_body.
  set (loc := Locals _ _ _).
  destruct (run_slots_inv line slots s loc Hs)
    as (s1 & l1 & -> & Hs1 & Hg1).
  simpl.
  pose proof (cleanup_inv (active_ids l1) s1 Hs1) as Hs2.
  destruct (total_cumulative_ok (cleanup (active_ids l1) s1)) as [t Ht];
    [apply Hs2 |].
  unfold finish_frame. rewrite Ht. simpl.
  eexists _, _. split; [done |]. split; [done |]. exact Hg1.
Qed.

Lemma iteration_inv (f : frame_input) (s : shared) (l : loop_state) :
  inv s →
  ∃ s' l' out, iteration f s l = Some (s', l', out)
               ∧ inv s'
               ∧ (quiet (Iterate f) = true → grows s s').
Proof.
  intros Hs. unfold iteration.
  pose proof (reset_check_inv s l Hs) as Hr.
  pose proof (reset_check_grows s l) as Hg.
  destruct (reset_check s l) as [s0 l0]. simpl in Hr, Hg.
  destruct f as [| slots].
  - exists s0, l0, None. done.
  - destruct (frame_body_inv (line_y l0) (vehicle_count (slot_classes slots))
                slots s0 Hr) as (s1 & out & -> & Hs1 & Hg1).
    simpl. eexists _, _, _. split; [done |]. split; [done |].
    intros Hq. simpl in Hq.
    eapply grows_trans; [done |]. by apply Hg1.
Qed.

Lemma step_inv (i : input) (sv : server) :
  inv (sh sv) →
  ∃ sv' out, step i sv = Some (sv', out)
             ∧ inv (sh sv')
             ∧ (quiet i = true → grows (sh sv) (sh sv')).
Proof.
  intros Hs. unfold step. destruct i as [| req | f].
  - destruct (worker sv); eexists _, _; (split; [done |]);
      (split; [done |]); intros _; apply grows_refl.
  - exists (Server (upload_video req (sh sv)).2 (worker sv)), None.
    split; [by destruct (worker sv) |].
    split; [by apply upload_video_inv | done].
  - destruct (worker sv) as [l |].
    + destruct (iteration_inv f (sh sv) l Hs)
        as (s' & l' & out & -> & Hs' & Hg).
      simpl. eexists _, _. by split.
    + eexists _, _. split; [done |]. split; [done |].
      intros _. apply grows_refl.
Qed.

Lemma run_inv (ins : list input) (sv : server) :
  inv (sh sv) →
  ∃ sv' outs, run ins sv = Some (sv', outs)
              ∧ inv (sh sv')
              ∧ (forallb quiet ins = true → grows (sh sv) (sh sv')).
Proof.
  revert sv. induction ins as [| i ins IH]; intros sv Hs.
  - exists sv, []. split; [done |]. split; [done |]. intros _. apply grows_refl.
  - destruct (step_inv i sv Hs) as (sv1 & out & Hstep & Hs1 & Hg1).
    destruct (IH sv1 Hs1) as (sv2 & outs & Hrun & Hs2 & Hg2).
    cbn [run]. rewrite Hstep. simpl. rewrite Hrun. simpl.
    eexists _, _. split; [done |]. split; [done |].
    intros Hq. simpl in Hq. apply andb_true_iff in Hq as [Hq1 Hq2].
    eapply grows_trans; [by apply Hg1 | by apply Hg2].
Qed.

(** ** Traffic status *)

(** C3 (as the code has it). For every total [>= 0]: 0 to 10 gives LOW,
    green, "Smooth Traffic Flow"; 11 to 20 gives MEDIUM, orange, "Moderate
    Traffic Volume"; 21 and more gives HIGH, red, and the message that
    starts with the siren character U+1F6A8 and a space, followed by
    "Heavy Traffic Volume". The density field is the total itself. *)
Theorem C3_traffic_status_ranges (total : Z) :
  0 ≤ total →
  (total ≤ 10 →
     traffic_status total = Status "LOW" "green" "Smooth Traffic Flow" total)
  ∧ (11 ≤ total ≤ 20 →
     traffic_status total
     = Status "MEDIUM" "orange" "Moderate Traffic Volume" total)
  ∧ (21 ≤ total →
     traffic_status total
     = Status "HIGH" "red" (siren +:+ " Heavy Traffic Volume") total).
Proof.
  intros _. unfold traffic_status. split; [| split]; intros H.
  - by rewrite decide_True.
  - rewrite decide_False by lia. by rewrite decide_True by lia.
  - rewrite decide_False by lia. by rewrite decide_False by lia.
Qed.

(** ** Crossing *)

Lemma upward_skips (line tid : Z) (name : string) (p q : pos)
    (old : list pos) (s : shared) :
  track_history s !! tid = Some old → last old = Some q →
  (p.2 <= q.2)%Q →
  track_and_count line tid name p s
  = Some (set_history
            (<[tid := append_bounded old p]> (track_history s)) s, []).
Proof.
  intros Hold Hlast Hup.
  pose proof (track_and_count_skips line tid name p s) as Hskip.
  rewrite Hold in Hskip. simpl in Hskip. apply Hskip. left.
  apply last_Some in Hlast as [pre ->].
  destruct (append_bounded_last2 pre q p) as [pre' ->].
  rewrite crossing_snoc2. apply not_true_iff_false.
  rewrite andb_true_iff, Qltb_lt, Qle_bool_iff. intros [Hq Hp].
  apply (Qlt_irrefl q.2).
  eapply Qlt_le_trans; [exact Hq |]. by eapply Qle_trans.
Qed.

(** C4. The crossing test of a track is true exactly when the track
    ends with two recorded positions [p], [c] with
    [p.y < line_y <= c.y]; a track with fewer than two positions never
    crosses; and a detection whose y is not below (in image coordinates,
    not greater than) the previously recorded y of its track, that is
    upward or lateral motion, leaves every count and the counted ids as
    they were. *)
Theorem C4_crossing_downward_only :
  (∀ (track : list pos) (line : Z),
     crossing track line = true ↔
     ∃ pre p c, track = pre ++ [p; c]
                ∧ (p.2 < inject_Z line)%Q ∧ (inject_Z line <= c.2)%Q)
  ∧ (∀ (track : list pos) (line : Z),
       (length track < 2)%nat → crossing track line = false)
  ∧ (∀ (line tid : Z) (name : string) (p q : pos) (old : list pos)
       (s : shared),
       track_history s !! tid = Some old → last old = Some q →
       (p.2 <= q.2)%Q →
       ∃ s', track_and_count line tid name p s = Some (s', [])
             ∧ cumulative_counts s' = cumulative_counts s
             ∧ counted_ids s' = counted_ids s).
Proof.
  split; [exact crossing_iff |]. split; [exact crossing_short |].
  intros line tid name p q old s Hold Hlast Hup.
  eexists. split; [by eapply upward_skips |]. done.
Qed.

(** ** The history window *)

Lemma append_bounded_eq (track : list pos) (p : pos) :
  append_bounded track p
  = (if decide (length track < 30)%nat then track else drop 1 track) ++ [p].
Proof.
  case_decide.
  - by apply append_bounded_below.
  - apply append_bounded_full. lia.
Qed.

(** C7. Updating a window appends the new position and, when the window
    already held 30 positions, drops the oldest one; the locked block of a
    detection stores exactly this window for the track; and after any
    sequence of connections, uploads and loop iterations, started from the
    initial state, the server is in a state in which no track's window is
    longer than 30. *)
Theorem C7_window_at_most_30 :
  (∀ (track : list pos) (p : pos),
     append_bounded track p
     = (if decide (length track < 30)%nat then track else drop 1 track)
       ++ [p])
  ∧ (∀ (line tid : Z) (name : string) (p : pos) (s s' : shared)
       (drawn : list draw),
       track_and_count line tid name p s = Some (s', drawn) →
       track_history s'
       = <[tid := append_bounded (default [] (track_history s !! tid)) p]>
           (track_history s))
  ∧ (∀ ins : list input,
       ∃ sv outs, run ins initial_server = Some (sv, outs)
                  ∧ ∀ tid w, track_history (sh sv) !! tid = Some w
                             → (length w ≤ 30)%nat).
Proof.
  split; [exact append_bounded_eq |]. split.
  - intros line tid name p s s' drawn. unfold track_and_count.
    destruct (crossing _ line); [| by intros [= <- _]].
    simpl. case_decide; [by intros [= <- _] |].
    destruct (cumulative_counts s !! name); simpl; [| done].
    by intros [= <- _].
  - intros ins.
    destruct (run_inv ins initial_server initial_shared_inv)
      as (sv & outs & Hrun & (_ & Hwin & _) & _).
    by exists sv, outs.
Qed.

(** ** Cleanup *)

(** C8. After the cleanup block every id that still has a history is
    active; every active id has the window it had before (and an active
    id without history still has none); the counted ids and the counts are
    the ones from before. *)
Theorem C8_cleanup_frame (active : gset Z) (s : shared) :
  dom (track_history (cleanup active s)) ⊆ active
  ∧ (∀ tid, tid ∈ active →
            track_history (cleanup active s) !! tid
            = track_history s !! tid)
  ∧ counted_ids (cleanup active s) = counted_ids s
  ∧ cumulative_counts (cleanup active s) = cumulative_counts s.
Proof.
  split; [| split; [| done]].
  - intros tid [w Hw]%elem_of_dom. rewrite cleanup_lookup in Hw.
    by case_decide.
  - intros tid Hin. rewrite cleanup_lookup. by rewrite decide_True.
Qed.

(** ** Rejected uploads *)

(** C10. A request without a "video" part, or whose "video" part has an
    empty filename, is answered with an error object and status 400, and
    the shared state (source path, reset flag, counts, counted ids,
    history) is the one from before the request. *)
Theorem C10_rejected_upload_keeps_state (req : request) (s : shared) :
  files req !! "video" = None
  ∨ (∃ file, files req !! "video" = Some file ∧ filename file = "") →
  ∃ msg, upload_video req s = (Json "error" msg 400, s).
Proof.
  intros [Hnone | (file & Hfile & Hname)]; unfold upload_video.
  - rewrite Hnone. by eexists.
  - rewrite Hfile. rewrite decide_True by done. by eexists.
Qed.

(** ** Counting at most once *)

Lemma run_app (ins1 ins2 : list input) (sv : server) :
  run (ins1 ++ ins2) sv
  = '(sv1, outs1) ← run ins1 sv;
    '(sv2, outs2) ← run ins2 sv1;
    Some (sv2, outs1 ++ outs2).
Proof.
  revert sv. induction ins1 as [| i ins1 IH]; intros sv; cbn [run app].
  - simpl. destruct (run ins2 sv) as [[sv2 outs2] |]; done.
  - destruct (step i sv) as [[sv1 out] |]; simpl; [| done].
    rewrite IH. destruct (run ins1 sv1) as [[sv1' outs1] |]; simpl; [| done].
    destruct (run ins2 sv1') as [[sv2 outs2] |]; simpl; [| done].
    by rewrite app_assoc.
Qed.

Lemma run_epoch (pre ins : list input) :
  forallb quiet ins = true →
  ∃ sv outs sv' outs',
    run pre initial_server = Some (sv, outs)
    ∧ run ins sv = Some (sv', outs')
    ∧ inv (sh sv) ∧ inv (sh sv') ∧ grows (sh sv) (sh sv').
Proof.
  intros Hq.
  destruct (run_inv pre initial_server initial_shared_inv)
    as (sv & outs & Hpre & Hsv & _).
  destruct (run_inv ins sv Hsv) as (sv' & outs' & Hins & Hsv' & Hg).
  exists sv, outs, sv', outs'. repeat (split; [done |]). by apply Hg.
Qed.


(** ** The sum of the counts *)

Lemma track_and_count_sum (line tid : Z) (name : string) (p : pos)
    (s s' : shared) (drawn : list draw) :
  track_and_count line tid name p s = Some (s', drawn) →
  sum_counts (cumulative_counts s) ≤ sum_counts (cumulative_counts s').
Proof.
  unfold track_and_count.
  destruct (crossing _ line); [| intros [= <- _]; simpl; lia].
  simpl. case_decide; [intros [= <- _]; simpl; lia |].
  destruct (cumulative_counts s !! name) as [n |] eqn:Hn; simpl; [| done].
  intros [= <- _]. simpl. rewrite (sum_counts_insert _ _ n) by done. lia.
Qed.

(** C6. The sum of the counts never goes down in a step of the loop:
    not in the locked block of a detection, not in the cleanup, not in
    the reset check, and so not over any sequence of iterations of one
    epoch (inputs without an upload) run from a reachable state. A
    successful upload leaves the sum at exactly 0, and the reset check
    that consumes it keeps it at 0. *)
Theorem C6_sum_monotone_zero_after_reset :
  (∀ (line tid : Z) (name : string) (p : pos) (s s' : shared)
     (drawn : list draw),
     track_and_count line tid name p s = Some (s', drawn) →
     sum_counts (cumulative_counts s) ≤ sum_counts (cumulative_counts s'))
  ∧ (∀ (active : gset Z) (s : shared),
       sum_counts (cumulative_counts (cleanup active s))
       = sum_counts (cumulative_counts s))
  ∧ (∀ (s : shared) (l : loop_state),
       sum_counts (cumulative_counts (reset_check s l).1)
       = sum_counts (cumulative_counts s))
  ∧ (∀ pre ins : list input,
       forallb quiet ins = true →
       ∃ sv outs sv' outs',
         run pre initial_server = Some (sv, outs)
         ∧ run ins sv = Some (sv', outs')
         ∧ sum_counts (cumulative_counts (sh sv))
           ≤ sum_counts (cumulative_counts (sh sv')))
  ∧ (∀ (req : request) (s s' : shared) (l : loop_state),
       upload_video req s = (Json "message" "Upload successful" 200, s') →
       sum_counts (cumulative_counts s') = 0
       ∧ sum_counts (cumulative_counts (reset_check s' l).1) = 0).
Proof.
  split; [exact track_and_count_sum |]. split; [done |]. split.
  { intros s l. unfold reset_check. by destruct (video_needs_reset s). }
  split.
  - intros pre ins Hq.
    destruct (run_epoch pre ins Hq)
      as (sv & outs & sv' & outs' & Hpre & Hins & _ & _ & _ & Hsum).
    by exists sv, outs, sv', outs'.
  - intros req s s' l Hup.
    assert (Hs' : ∃ fp, s' = switch_source fp).
    { destruct (upload_video_cases req s) as [Hsame | [fp Hfp]].
      - unfold upload_video in Hup.
        destruct (files req !! "video"); [| done].
        case_decide; [done |].
        destruct (save _ _); [| done].
        injection Hup as <-. by eexists.
      - rewrite Hfp in Hup. injection Hup as <-. by eexists. }
    destruct Hs' as [fp ->]. split; reflexivity.
Qed.

(** ** The emitted record *)

Lemma detection_body_density (line n : Z) (d : detection) (s : shared)
    (l : locals) :
  detection_body line d (s, with_density n l)
  = (λ st, (st.1, with_density n st.2)) <$> detection_body line d (s, l).
Proof.
  unfold detection_body.
  destruct (TARGET_CLASSES !! cls d) as [name |]; [| done].
  destruct (box d) as [[[x y] w] h].
  by destruct (track_and_count line (track_id d) name (x, y) s)
    as [[s' drawn] |].
Qed.

Lemma run_slots_density (line n : Z) (slots : list slot) (s : shared)
    (l : locals) :
  run_slots line slots (s, with_density n l)
  = (λ st, (st.1, with_density n st.2)) <$> run_slots line slots (s, l).
Proof.
  revert s l. induction slots as [| sl slots IH]; intros s l.
  - done.
  - destruct sl as [d | req]; cbn [run_slots].
    + rewrite detection_body_density.
      destruct (detection_body line d (s, l)) as [[s1 l1] |]; simpl; [| done].
      apply IH.
    + simpl. apply IH.
Qed.

Lemma frame_body_density (line n m : Z) (slots : list slot) (s : shared) :
  frame_body line n slots s = frame_body line m slots s.
Proof.
  unfold frame_body.
  change (Locals n ∅ [CountingLine line])
    with (with_density n (Locals m ∅ [CountingLine line])).
  rewrite run_slots_density.
  by destruct (run_slots line slots (s, Locals m ∅ [CountingLine line]))
    as [[s1 l1] |].
Qed.

Lemma traffic_status_density (t : Z) : density (traffic_status t) = t.
Proof. unfold traffic_status. by repeat case_decide. Qed.

(** C9. In the record a frame emits, the counts are the shared counts
    after the frame's cleanup, [status.density] is the sum of the emitted
    counts of Car, Bus, Truck, Person and Bicycle, and level, color and
    message are the traffic status of that same number. The value of the
    local [current_density] has no influence on the new state or on any
    field of the record, and a frame processed in a reachable state
    always emits. *)
Theorem C9_density_is_cumulative_total :
  (∀ (line n : Z) (slots : list slot) (s s' : shared) (out : video_data),
     frame_body line n slots s = Some (s', out) →
     counts out = cumulative_counts s'
     ∧ (∃ car bus truck person bicycle,
          counts out !! "Car" = Some car
          ∧ counts out !! "Bus" = Some bus
          ∧ counts out !! "Truck" = Some truck
          ∧ counts out !! "Person" = Some person
          ∧ counts out !! "Bicycle" = Some bicycle
          ∧ density (data_status out)
            = car + bus + truck + person + bicycle)
     ∧ data_status out = traffic_status (density (data_status out)))
  ∧ (∀ (line n m : Z) (slots : list slot) (s : shared),
       frame_body line n slots s = frame_body line m slots s)
  ∧ (∀ (ins : list input) (line n : Z) (slots : list slot),
       ∃ sv outs, run ins initial_server = Some (sv, outs)
                  ∧ is_Some (frame_body line n slots (sh sv))).
Proof.
  split; [| split; [exact frame_body_density |]].
  - intros line n slots s s' out. unfold frame_body.
    destruct (run_slots line slots _) as [[s1 l1] |]; simpl; [| done].
    unfold finish_frame.
    destruct (total_cumulative _) as [t |] eqn:Ht; simpl; [| done].
    intros [= <- <-]. simpl in *. rewrite traffic_status_density.
    split; [done |]. split; [| done].
    unfold total_cumulative in Ht.
    destruct (cumulative_counts s1 !! "Car") as [ca |]; [| done].
    destruct (cumulative_counts s1 !! "Bus") as [bu |]; [| done].
    destruct (cumulative_counts s1 !! "Truck") as [tr |]; [| done].
    destruct (cumulative_counts s1 !! "Person") as [pe |]; [| done].
    destruct (cumulative_counts s1 !! "Bicycle") as [bi |]; [| done].
    simpl in Ht. injection Ht as <-.
    by exists ca, bu, tr, pe, bi.
  - intros ins line n slots.
    destruct (run_inv ins initial_server initial_shared_inv)
      as (sv & outs & Hrun & Hsv & _).
    exists sv, outs. split; [done |].
    destruct (frame_body_inv line n slots (sh sv) Hsv) as (s' & out & -> & _).
    by eexists.
Qed.

(** ** The total that feeds the status *)

Lemma sum_counts_delete (c : gmap string Z) (k : string) (n : Z) :
  c !! k = Some n → sum_counts c = n + sum_counts (delete k c).
Proof.
  intros Hk. unfold sum_counts.
  rewrite (map_fold_delete_L _ _ k n c); [done | intros; lia | done].
Qed.

(** With all six names as keys, the total of lines 206-212 is the sum of
    all counts less the count of Motorcycle. *)
Lemma total_cumulative_sum (s : shared) :
  counts_ok s →
  ∃ m, cumulative_counts s !! "Motorcycle" = Some m
       ∧ total_cumulative (cumulative_counts s)
         = Some (sum_counts (cumulative_counts s) - m).
Proof.
  intros Hok. set (c := cumulative_counts s).
  assert (H : ∀ name, bool_decide (name ∈ class_names) = true →
                      is_Some (c !! name)).
  { intros name Hn. apply counts_ok_lookup; [done |].
    by apply bool_decide_eq_true in Hn. }
  destruct (H "Person" eq_refl) as [pe Hpe].
  destruct (H "Bicycle" eq_refl) as [bi Hbi].
  destruct (H "Car" eq_refl) as [ca Hca].
  destruct (H "Motorcycle" eq_refl) as [mo Hmo].
  destruct (H "Bus" eq_refl) as [bu Hbu].
  destruct (H "Truck" eq_refl) as [tr Htr].
  exists mo. split; [done |].
  unfold total_cumulative. rewrite Hca, Hbu, Htr, Hpe, Hbi. simpl.
  f_equal.
  rewrite (sum_counts_delete c "Person" pe) by done.
  rewrite (sum_counts_delete _ "Bicycle" bi)
    by (by rewrite lookup_delete_ne).
  rewrite (sum_counts_delete _ "Car" ca)
    by (by rewrite !lookup_delete_ne).
  rewrite (sum_counts_delete _ "Motorcycle" mo)
    by (by rewrite !lookup_delete_ne).
  rewrite (sum_counts_delete _ "Bus" bu)
    by (by rewrite !lookup_delete_ne).
  rewrite (sum_counts_delete _ "Truck" tr)
    by (by rewrite !lookup_delete_ne).
  match goal with |- context [sum_counts ?m] =>
    assert (Hempty : m = ∅) end.
  { apply dom_empty_iff_L. rewrite !dom_delete_L.
    unfold counts_ok in Hok. fold c in Hok. rewrite Hok.
    apply (bool_decide_unpack _). by vm_compute. }
  rewrite Hempty. unfold sum_counts at 1. rewrite map_fold_empty. lia.
Qed.

(** ** Reset: the request and its consumption *)

(** The counting line lies at two thirds of the frame height. *)
Lemma line_of_thirds (c : capture) : line_of c = 2 * cap_height c / 3.
Proof.
  unfold line_of, Qfloor, Qdiv, Qmult, Qinv, inject_Z. simpl.
  f_equal. lia.
Qed.



(** * More of the loop, the upload endpoint and the connect handler *)

(** ** Predicates kept by every block are kept by every run *)

Section Preserved.

Variable P : shared → Prop.
Variable Q : video_data → Prop.

Hypothesis P_count :
  ∀ line tid name p s s' drawn,
    name ∈ class_names → P s →
    track_and_count line tid name p s = Some (s', drawn) → P s'.
Hypothesis P_cleanup : ∀ active s, P s → P (cleanup active s).
Hypothesis P_switch : ∀ filepath, P (switch_source filepath).
Hypothesis P_reset : ∀ s l, P s → P (reset_check s l).1.
Hypothesis Q_emit : ∀ s l out, P s → finish_frame s l = Some out → Q out.

Lemma detection_body_preserves (line : Z) (d : detection) (s s' : shared)
    (l l' : locals) :
  P s → detection_body line d (s, l) = Some (s', l') → P s'.
Proof.
  intros Hs. unfold detection_body.
  destruct (TARGET_CLASSES !! cls d) as [name |] eqn:Hcls.
  - destruct (box d) as [[[x y] w] h].
    destruct (track_and_count line (track_id d) name (x, y) s)
      as [[s1 drawn] |] eqn:Hrun; simpl; [| done].
    intros [= <- _]. eapply P_count; [| exact Hs | exact Hrun].
    by eapply class_name_known.
  - by intros [= <- _].
Qed.

Lemma upload_video_preserves (req : request) (s : shared) :
  P s → P (upload_video req s).2.
Proof.
  intros Hs. destruct (upload_video_cases req s) as [-> | [fp ->]]; [done |].
  apply P_switch.
Qed.

Lemma run_slots_preserves (line : Z) (slots : list slot) (s s' : shared)
    (l l' : locals) :
  P s → run_slots line slots (s, l) = Some (s', l') → P s'.
Proof.
  revert s l. induction slots as [| sl slots IH]; intros s l Hs.
  - by intros [= <- _].
  - destruct sl as [d | req]; cbn [run_slots].
    + destruct (detection_body line d (s, l)) as [[s1 l1] |] eqn:Hd;
        simpl; [| done].
      apply IH. by eapply detection_body_preserves.
    + apply IH. simpl. by apply upload_video_preserves.
Qed.

Lemma frame_body_preserves (line n : Z) (slots : list slot) (s s' : shared)
    (out : video_data) :
  P s → frame_body line n slots s = Some (s', out) → P s' ∧ Q out.
Proof.
  intros Hs. unfold frame_body.
  destruct (run_slots line slots _) as [[s1 l1] |] eqn:Hrun; simpl; [| done].
  apply run_slots_preserves in Hrun; [| done].
  destruct (finish_frame _ l1) as [o |] eqn:Hfin; simpl; [| done].
  intros [= <- <-]. split; [by apply P_cleanup |].
  eapply Q_emit; [| exact Hfin]. by apply P_cleanup.
Qed.

Lemma step_preserves (i : input) (sv sv' : server) (out : option video_data) :
  P (sh sv) → step i sv = Some (sv', out) →
  P (sh sv') ∧ from_option Q True out.
Proof.
  intros Hs. unfold step. destruct i as [| req | f].
  - destruct (worker sv); intros [= <- <-]; done.
  - destruct (worker sv); intros [= <- <-]; simpl;
      (split; [by apply upload_video_preserves | done]).
  - destruct (worker sv) as [l |]; [| by intros [= <- <-]].
    unfold iteration.
    pose proof (P_reset (sh sv) l Hs) as Hr.
    destruct (reset_check (sh sv) l) as [s0 l0]. simpl in Hr.
    destruct f as [| slots]; [by intros [= <- <-] |].
    destruct (frame_body _ _ slots s0) as [[s1 o] |] eqn:Hf; simpl; [| done].
    intros [= <- <-]. simpl. by eapply frame_body_preserves.
Qed.

Lemma run_preserves (ins : list input) (sv sv' : server)
    (outs : list video_data) :
  P (sh sv) → run ins sv = Some (sv', outs) → P (sh sv') ∧ Forall Q outs.
Proof.
  revert sv outs. induction ins as [| i ins IH]; intros sv outs Hs; cbn [run].
  - by intros [= <- <-].
  - destruct (step i sv) as [[sv1 out] |] eqn:Hstep; simpl; [| done].
    destruct (step_preserves i sv sv1 out Hs Hstep) as [Hs1 Hout].
    destruct (run ins sv1) as [[sv2 outs2] |] eqn:Hrun; simpl; [| done].
    intros [= <- <-].
    destruct (IH sv1 outs2 Hs1 Hrun) as [Hs2 Houts]. split; [done |].
    apply Forall_app. split; [| done].
    destruct out as [o |]; simpl; [by apply Forall_singleton | done].
Qed.

End Preserved.

(** ** What one locked detection block can do *)

Lemma track_and_count_cases (line tid : Z) (name : string) (p : pos)
    (s s' : shared) (drawn : list draw) :
  track_and_count line tid name p s = Some (s', drawn) →
  current_video_source s' = current_video_source s
  ∧ video_needs_reset s' = video_needs_reset s
  ∧ track_history s'
    = <[tid := append_bounded (default [] (track_history s !! tid)) p]>
        (track_history s)
  ∧ ((cumulative_counts s' = cumulative_counts s
      ∧ counted_ids s' = counted_ids s ∧ drawn = [])
     ∨ (∃ n, cumulative_counts s !! name = Some n
             ∧ cumulative_counts s' = <[name := n + 1]> (cumulative_counts s)
             ∧ (tid ∉ counted_ids s)
             ∧ counted_ids s' = {[tid]} ∪ counted_ids s
             ∧ drawn = [CountedLine line])).
Proof.
  unfold track_and_count.
  destruct (crossing _ line).
  - simpl. case_decide as Hin.
    + intros [= <- <-]. simpl. repeat (split; [done |]). by left.
    + destruct (cumulative_counts s !! name) as [n |] eqn:Hn; simpl; [| done].
      intros [= <- <-]. simpl. repeat (split; [done |]). right. by exists n.
  - intros [= <- <-]. simpl. repeat (split; [done |]). by left.
Qed.

(** ** The loop never fails on a missing key *)

(** X1. Whatever connections, uploads and loop iterations are run from the
    initial state, and however uploads are interleaved with the detections
    of a frame, no subscription of [cumulative_counts] fails: the run
    returns, and the dict still has exactly the six class names as keys. *)
Theorem X1_loop_never_raises (ins : list input) :
  ∃ sv outs, run ins initial_server = Some (sv, outs)
             ∧ dom (cumulative_counts (sh sv)) = list_to_set class_names.
Proof.
  destruct (run_inv ins initial_server initial_shared_inv)
    as (sv & outs & Hrun & (Hok & _) & _).
  by exists sv, outs.
Qed.

(** ** Counts and density are never negative *)

Lemma total_cumulative_bounds (s : shared) (t : Z) :
  counts_ok s → counts_nonneg s →
  total_cumulative (cumulative_counts s) = Some t →
  0 ≤ t ≤ sum_counts (cumulative_counts s).
Proof.
  intros Hok Hpos Ht.
  destruct (total_cumulative_sum s Hok) as (m & Hm & Hsum).
  rewrite Ht in Hsum. injection Hsum as ->.
  split; [| apply Hpos in Hm; lia].
  unfold total_cumulative in Ht.
  destruct (cumulative_counts s !! "Car") as [ca |] eqn:Hca; [| done].
  destruct (cumulative_counts s !! "Bus") as [bu |] eqn:Hbu; [| done].
  destruct (cumulative_counts s !! "Truck") as [tr |] eqn:Htr; [| done].
  destruct (cumulative_counts s !! "Person") as [pe |] eqn:Hpe; [| done].
  destruct (cumulative_counts s !! "Bicycle") as [bi |] eqn:Hbi; [| done].
  simpl in Ht. injection Ht as Ht.
  apply Hpos in Hca, Hbu, Htr, Hpe, Hbi. lia.
Qed.

Lemma zero_counts_nonneg (name : string) (v : Z) :
  zero_counts !! name = Some v → 0 ≤ v.
Proof.
  intros H. apply elem_of_list_to_map_2 in H.
  apply list_elem_of_fmap in H as (n & [= -> ->] & _). lia.
Qed.

(** X2. In every state the server reaches no count is negative, and in
    every record it has emitted the counts are non-negative and the density
    lies between 0 and the sum of the emitted counts. *)
Theorem X2_counts_and_density_nonnegative (ins : list input) :
  ∃ sv outs,
    run ins initial_server = Some (sv, outs)
    ∧ (∀ name v, cumulative_counts (sh sv) !! name = Some v → 0 ≤ v)
    ∧ Forall (λ out,
                (∀ name v, counts out !! name = Some v → 0 ≤ v)
                ∧ 0 ≤ density (data_status out) ≤ sum_counts (counts out))
             outs.
Proof.
  destruct (run_inv ins initial_server initial_shared_inv)
    as (sv & outs & Hrun & _).
  exists sv, outs. split; [done |].
  pose proof (run_preserves
                (λ s, counts_ok s ∧ counts_nonneg s)
                (λ out,
                   (∀ name v, counts out !! name = Some v → 0 ≤ v)
                   ∧ 0 ≤ density (data_status out) ≤ sum_counts (counts out)))
    as Hkeep.
  destruct (Hkeep) with (ins := ins) (sv := initial_server) (sv' := sv)
                        (outs := outs) as [[_ Hpos] Houts]; try done.
  - intros line tid name p s s' drawn Hname [Hok Hpos] Hrun'.
    apply track_and_count_cases in Hrun'
      as (_ & _ & _ & [(Hc & _) | (n & Hn & Hc & _)]).
    + unfold counts_ok, counts_nonneg. by rewrite Hc.
    + split.
      * unfold counts_ok in *. rewrite Hc. by rewrite dom_insert_lookup_L.
      * intros k v. rewrite Hc, lookup_insert. case_decide.
        -- intros [= <-]. apply Hpos in Hn. lia.
        -- apply Hpos.
  - intros filepath. split; [apply zero_counts_dom |].
    intros name v. apply zero_counts_nonneg.
  - intros s l Hs. unfold reset_check. by destruct (video_needs_reset s).
  - intros s l out [Hok Hpos] Hfin. unfold finish_frame in Hfin.
    destruct (total_cumulative (cumulative_counts s)) as [t |] eqn:Ht;
      simpl in Hfin; [| done].
    injection Hfin as <-. simpl. split; [exact Hpos |].
    rewrite traffic_status_density. by apply total_cumulative_bounds.
  - split; [apply zero_counts_dom |]. intros name v. apply zero_counts_nonneg.
Qed.

(** ** The window is the most recent 30 positions *)

Lemma append_bounded_fold (w ps : list pos) :
  (length w ≤ 30)%nat →
  foldl append_bounded w ps = drop (length (w ++ ps) - 30) (w ++ ps).
Proof.
  revert w. induction ps as [| p ps IH]; intros w Hw; cbn [foldl].
  - rewrite app_nil_r. replace (length w - 30)%nat with 0%nat by lia. done.
  - rewrite IH by (by apply append_bounded_length).
    destruct (decide (length w < 30)%nat) as [Hlt | Hge].
    + rewrite append_bounded_below by done. by rewrite <- app_assoc.
    + rewrite append_bounded_full by lia.
      assert (Hlen : length w = 30%nat) by lia.
      destruct w as [| x w']; [done |].
      cbn [length] in Hlen.
      change (drop 1 (x :: w')) with w'.
      rewrite <- app_assoc. cbn [app].
      rewrite length_app. cbn [length]. rewrite length_app. cbn [length].
      replace (length w' + S (length ps) - 30)%nat with (length ps) by lia.
      replace (S (length w' + S (length ps)) - 30)%nat
        with (S (length ps)) by lia.
      reflexivity.
Qed.

(** X3. The window is a FIFO of the most recent positions: recording the
    positions [ps] one after the other, from an empty window, leaves
    exactly the last 30 of them, in order (all of them while there are at
    most 30). *)
Theorem X3_window_is_last_30 (ps : list pos) :
  foldl append_bounded [] ps = drop (length ps - 30) ps.
Proof. rewrite append_bounded_fold by (simpl; lia). done. Qed.

(** ** Detections of other classes *)

Lemma run_slots_keep (line : Z) (slots : list slot) (st : shared * locals) :
  run_slots line slots st
  = run_slots line (List.filter keep_slot slots) st.
Proof.
  revert st. induction slots as [| sl slots IH]; intros st; [done |].
  destruct sl as [d | req]; cbn [List.filter keep_slot].
  - destruct (TARGET_CLASSES !! cls d) as [name |] eqn:Hcls.
    + rewrite bool_decide_eq_true_2 by done. cbn [run_slots].
      destruct (detection_body line d st) as [st' |]; simpl; [apply IH | done].
    + rewrite bool_decide_eq_false_2 by (by intros [? ?]).
      cbn [run_slots]. destruct st as [s l]. unfold detection_body.
      rewrite Hcls. simpl. apply IH.
  - cbn [run_slots]. apply IH.
Qed.

(** X4. A detection whose class is not one of [TARGET_CLASSES] has no
    effect at all: an iteration gives the same shared state, the same loop
    state and the same emitted record (counts, status and overlay) as the
    iteration on the frame without these detections. *)
Theorem X4_other_classes_are_ignored (slots : list slot) (s : shared)
    (l : loop_state) :
  iteration (Frame slots) s l
  = iteration (Frame (List.filter keep_slot slots)) s l.
Proof.
  unfold iteration. destruct (reset_check s l) as [s0 l0].
  rewrite (frame_body_density (line_y l0)
             (vehicle_count (slot_classes slots))
             (vehicle_count (slot_classes (List.filter keep_slot slots)))).
  unfold frame_body. by rewrite run_slots_keep.
Qed.

(** ** The history holds exactly the tracks of the last frame *)

Lemma cleanup_dom (active : gset Z) (s : shared) :
  dom (track_history (cleanup active s)) = dom (track_history s) ∩ active.
Proof.
  apply set_eq. intros k.
  rewrite elem_of_intersection, !elem_of_dom, cleanup_lookup.
  case_decide; split.
  - by intros.
  - by intros [? _].
  - by intros [? ?].
  - by intros [_ ?].
Qed.

Lemma detection_body_ids (line : Z) (d : detection) (s s' : shared)
    (l l' : locals) :
  detection_body line d (s, l) = Some (s', l') →
  active_ids l' = frame_ids [Det d] ∪ active_ids l
  ∧ dom (track_history s') = frame_ids [Det d] ∪ dom (track_history s).
Proof.
  clear secure_filename path_join save frame_height.
  unfold detection_body, frame_ids. simpl.
  destruct (TARGET_CLASSES !! cls d) as [name |].
  - destruct (box d) as [[[x y] w] h].
    destruct (track_and_count line (track_id d) name (x, y) s)
      as [[s1 drawn] |] eqn:Hrun; simpl; [| done].
    intros [= <- <-]. simpl.
    apply track_and_count_cases in Hrun as (_ & _ & -> & _).
    rewrite dom_insert_L. set_solver.
  - intros [= <- <-]. set_solver.
Qed.

Lemma frame_ids_cons (sl : slot) (slots : list slot) :
  frame_ids (sl :: slots) = frame_ids [sl] ∪ frame_ids slots.
Proof.
  clear secure_filename path_join save frame_height.
  unfold frame_ids. simpl.
  destruct sl as [d | req]; [| set_solver].
  destruct (TARGET_CLASSES !! cls d); set_solver.
Qed.

Lemma run_slots_ids (line : Z) (slots : list slot) (s s' : shared)
    (l l' : locals) :
  run_slots line slots (s, l) = Some (s', l') →
  active_ids l' = frame_ids slots ∪ active_ids l
  ∧ (forallb quiet_slot slots = true →
     dom (track_history s') = frame_ids slots ∪ dom (track_history s)).
Proof.
  clear frame_height.
  revert s l. induction slots as [| sl slots IH]; intros s l.
  - intros [= <- <-]. unfold frame_ids. simpl. set_solver.
  - rewrite frame_ids_cons. destruct sl as [d | req]; cbn [run_slots].
    + destruct (detection_body line d (s, l)) as [[s1 l1] |] eqn:Hd;
        simpl; [| done].
      apply detection_body_ids in Hd as [Ha Hh].
      intros Hrun. apply IH in Hrun as [Ha' Hh'].
      split; [rewrite Ha', Ha; set_solver |].
      intros Hq. simpl in Hq. rewrite Hh', Hh by done. set_solver.
    + intros Hrun. apply IH in Hrun as [Ha' _]. simpl in Ha'.
      split; [rewrite Ha'; unfold frame_ids; simpl; set_solver |].
      intros Hq. simpl in Hq. done.
Qed.

(** X5. After a frame the history has no entry for a track that was not
    among the frame's recognized detections; and when no upload was served
    during the frame, its keys are exactly the track ids of the frame's
    recognized detections, whatever the history held before. *)
Theorem X5_history_keys_after_frame (line n : Z) (slots : list slot)
    (s s' : shared) (out : video_data) :
  frame_body line n slots s = Some (s', out) →
  dom (track_history s') ⊆ frame_ids slots
  ∧ (forallb quiet_slot slots = true →
     dom (track_history s') = frame_ids slots).
Proof.
  clear frame_height.
  unfold frame_body.
  destruct (run_slots line slots _) as [[s1 l1] |] eqn:Hrun; simpl; [| done].
  destruct (finish_frame _ l1) as [o |]; simpl; [| done].
  intros [= <- <-]. apply run_slots_ids in Hrun as [Ha Hh]. simpl in Ha.
  rewrite cleanup_dom, Ha. split; [set_solver |].
  intros Hq. rewrite Hh by done. set_solver.
Qed.

(** ** Requests are a single slot *)

(** X6. A pending reset is consumed once: after the reset check the flag
    is clear, and a second reset check changes neither the shared state
    nor the loop's capture and line. *)
Theorem X6_reset_consumed_once (s : shared) (l : loop_state) :
  video_needs_reset (reset_check s l).1 = false
  ∧ reset_check (reset_check s l).1 (reset_check s l).2 = reset_check s l.
Proof.
  unfold reset_check. destruct (video_needs_reset s) eqn:Hflag; simpl.
  - done.
  - by rewrite Hflag.
Qed.


(** X8. Every other answer of the upload endpoint, including a failing
    [file.save], leaves the shared state as it was: the state changes only
    together with the answer "Upload successful". *)
Theorem X8_failed_upload_keeps_state (req : request) (s : shared) :
  (upload_video req s).1 ≠ Json "message" "Upload successful" 200 →
  (upload_video req s).2 = s.
Proof.
  unfold upload_video.
  destruct (files req !! "video") as [file |]; [| done].
  case_decide; [done |]. destruct (save file _); [| done].
  simpl. intros Hne. by destruct Hne.
Qed.

(** ** The counting line lies in the frame *)

(** X9. For a capture of height [h >= 0] the counting line is at
    [floor(2h/3)], between 0 and [h], and strictly above the bottom edge
    when [h > 0]; a capture that could not be opened (height 0) puts it at
    0. *)
Theorem X9_line_inside_frame (c : capture) :
  0 ≤ cap_height c →
  line_of c = 2 * cap_height c / 3
  ∧ 0 ≤ line_of c ≤ cap_height c
  ∧ (0 < cap_height c → line_of c < cap_height c)
  ∧ (cap_height c = 0 → line_of c = 0).
Proof.
  intros Hh. rewrite line_of_thirds. split; [done |].
  split; [| split].
  - split; [apply Z.div_pos; lia |].
    apply Z.div_le_upper_bound; lia.
  - intros Hpos. apply Z.div_lt_upper_bound; lia.
  - intros ->. reflexivity.
Qed.

(** ** The loop reads the current source unless a reset is pending *)

Lemma run_slots_source (line : Z) (slots : list slot) (s s' : shared)
    (l l' : locals) :
  run_slots line slots (s, l) = Some (s', l') →
  video_needs_reset s' = false →
  video_needs_reset s = false
  ∧ current_video_source s' = current_video_source s.
Proof.
  revert s l. induction slots as [| sl slots IH]; intros s l.
  - by intros [= <- <-].
  - destruct sl as [d | req]; cbn [run_slots].
    + destruct (detection_body line d (s, l)) as [[s1 l1] |] eqn:Hd;
        simpl; [| done].
      intros Hrun Hflag. destruct (IH _ _ Hrun Hflag) as [Hf1 Hs1].
      unfold detection_body in Hd.
      destruct (TARGET_CLASSES !! cls d) as [name |].
      * destruct (box d) as [[[x y] w] h].
        destruct (track_and_count line (track_id d) name (x, y) s)
          as [[s2 drawn] |] eqn:Hc; simpl in Hd; [| done].
        injection Hd as <- _.
        apply track_and_count_cases in Hc as (Hsrc & Hfl & _).
        by rewrite <- Hfl, <- Hsrc.
      * by injection Hd as <- _.
    + simpl. intros Hrun Hflag. destruct (IH _ _ Hrun Hflag) as [Hf1 Hs1].
      destruct (upload_video_cases req s) as [Hsame | [fp Hfp]].
      * by rewrite Hsame in Hf1, Hs1.
      * rewrite Hfp in Hf1. done.
Qed.

Lemma frame_body_source (line n : Z) (slots : list slot) (s s' : shared)
    (out : video_data) :
  frame_body line n slots s = Some (s', out) →
  video_needs_reset s' = false →
  video_needs_reset s = false
  ∧ current_video_source s' = current_video_source s.
Proof.
  unfold frame_body.
  destruct (run_slots line slots _) as [[s2 l2] |] eqn:Hrun; simpl; [| done].
  destruct (finish_frame _ l2); simpl; [| done].
  intros [= <- _] Hflag. simpl in *.
  by eapply run_slots_source.
Qed.

Lemma reset_check_bound (s : shared) (l : loop_state) :
  cap l = VideoCapture (cap_source (cap l)) →
  line_y l = line_of (cap l) →
  (video_needs_reset s = false → cap_source (cap l) = current_video_source s) →
  cap (reset_check s l).2 = VideoCapture (cap_source (cap (reset_check s l).2))
  ∧ line_y (reset_check s l).2 = line_of (cap (reset_check s l).2)
  ∧ cap_source (cap (reset_check s l).2)
    = current_video_source (reset_check s l).1.
Proof.
  intros Hcap Hline Hsrc. unfold reset_check.
  destruct (video_needs_reset s) eqn:Hflag; simpl.
  - done.
  - split; [done |]. split; [done |]. by apply Hsrc.
Qed.

Lemma iteration_bound (f : frame_input) (s s' : shared) (l l' : loop_state)
    (out : option video_data) :
  cap l = VideoCapture (cap_source (cap l)) →
  line_y l = line_of (cap l) →
  (video_needs_reset s = false → cap_source (cap l) = current_video_source s) →
  iteration f s l = Some (s', l', out) →
  cap l' = VideoCapture (cap_source (cap l'))
  ∧ line_y l' = line_of (cap l')
  ∧ (video_needs_reset s' = false →
     cap_source (cap l') = current_video_source s').
Proof.
  intros Hcap Hline Hsrc. unfold iteration.
  pose proof (reset_check_bound s l Hcap Hline Hsrc) as (Hc0 & Hl0 & Hs0).
  destruct (reset_check s l) as [s0 l0]. simpl in Hc0, Hl0, Hs0.
  destruct f as [| slots].
  - intros [= <- <- _]. done.
  - destruct (frame_body _ _ slots s0) as [[s1 o] |] eqn:Hf; simpl; [| done].
    intros [= <- <- _]. split; [done |]. split; [done |].
    intros Hflag. destruct (frame_body_source _ _ _ _ _ _ Hf Hflag) as [_ ->].
    done.
Qed.

Lemma step_bound (i : input) (sv sv' : server) (out : option video_data) :
  loop_bound sv → step i sv = Some (sv', out) → loop_bound sv'.
Proof.
  intros Hb. unfold step. destruct i as [| req | f].
  - destruct (worker sv) as [l |] eqn:Hw; intros [= <- <-]; [done |].
    intros l [= <-]. done.
  - intros Hstep.
    assert (sv' = Server (upload_video req (sh sv)).2 (worker sv)) as ->
      by (destruct (worker sv); by injection Hstep as <- _).
    intros l Hw. simpl in Hw. destruct (Hb l Hw) as (Hcap & Hline & Hsrc).
    split; [done |]. split; [done |]. simpl.
    destruct (upload_video_cases req (sh sv)) as [-> | [fp ->]]; done.
  - destruct (worker sv) as [l |] eqn:Hw; [| by intros [= <- <-]].
    destruct (Hb l Hw) as (Hcap & Hline & Hsrc).
    destruct (iteration f (sh sv) l) as [[[s1 l1] o] |] eqn:Hit;
      simpl; [| done].
    intros [= <- <-]. intros l' [= <-]. simpl.
    by eapply iteration_bound.
Qed.

Lemma run_bound (ins : list input) (sv sv' : server)
    (outs : list video_data) :
  loop_bound sv → run ins sv = Some (sv', outs) → loop_bound sv'.
Proof.
  revert sv outs. induction ins as [| i ins IH]; intros sv outs Hb; cbn [run].
  - by intros [= <- <-].
  - destruct (step i sv) as [[sv1 out] |] eqn:Hstep; simpl; [| done].
    destruct (run ins sv1) as [[sv2 outs2] |] eqn:Hrun; simpl; [| done].
    intros [= <- <-]. eapply IH; [| exact Hrun]. by eapply step_bound.
Qed.

(** X10. In every state the server reaches, once the loop has been
    started its line is the one computed from the frame height of the
    source its capture is bound to, and whenever no reset is pending that
    source is the current shared source path. *)
Theorem X10_capture_follows_source (ins : list input) :
  ∃ sv outs,
    run ins initial_server = Some (sv, outs)
    ∧ ∀ l, worker sv = Some l →
           line_y l = 2 * frame_height (cap_source (cap l)) / 3
           ∧ (video_needs_reset (sh sv) = false →
              cap_source (cap l) = current_video_source (sh sv)).
Proof.
  destruct (run_inv ins initial_server initial_shared_inv)
    as (sv & outs & Hrun & _).
  exists sv, outs. split; [done |]. intros l Hw.
  assert (Hb : loop_bound sv).
  { eapply run_bound; [| exact Hrun]. intros l0 Hw0. done. }
  destruct (Hb l Hw) as (Hcap & Hline & Hsrc). split; [| done].
  rewrite Hline, line_of_thirds, Hcap. reflexivity.
Qed.

(** ** A track needs two positions of its own *)

(** X11. The first detection of a track that has no history (a new track,
    or one whose history the cleanup removed after a frame without it)
    never counts, wherever it lies relative to the line: the block stores
    the one-position window and leaves counts and counted ids alone. *)
Theorem X11_first_detection_never_counts (line tid : Z) (name : string)
    (p : pos) (s : shared) :
  track_history s !! tid = None →
  track_and_count line tid name p s
  = Some (set_history (<[tid := [p]]> (track_history s)) s, []).
Proof.
  intros Hnone.
  pose proof (track_and_count_skips line tid name p s) as Hskip.
  rewrite Hnone in Hskip. simpl in Hskip.
  rewrite append_bounded_below in Hskip by (simpl; lia).
  apply Hskip. left. apply crossing_short. simpl. lia.
Qed.

(** ** Cleanup is a filter *)

Lemma cleanup_filter (active : gset Z) (s : shared) :
  cleanup active s
  = set_history (filter (λ kv, kv.1 ∈ active) (track_history s)) s.
Proof.
  assert (H : track_history (cleanup active s)
              = filter (λ kv, kv.1 ∈ active) (track_history s)).
  { apply map_eq. intros k. rewrite cleanup_lookup.
    destruct (track_history s !! k) as [w |] eqn:Hw.
    - case_decide.
      + symmetry. by apply map_lookup_filter_Some.
      + symmetry. apply map_lookup_filter_None. right.
        intros w' Hw'. simpl. done.
    - assert (filter (λ kv, kv.1 ∈ active) (track_history s) !! k = None)
        as -> by (apply map_lookup_filter_None; by left).
      by case_decide. }
  unfold cleanup in *. simpl in *. unfold set_history. by rewrite H.
Qed.

(** X12. The cleanup loop is a filter on the history: cleaning up with
    [b] and then with [a] is cleaning up once with the ids in both; so a
    repeated cleanup with the same set changes nothing, and the order of
    two cleanups does not matter. *)
Theorem X12_cleanup_composes (a b : gset Z) (s : shared) :
  cleanup a (cleanup b s) = cleanup (a ∩ b) s
  ∧ cleanup a (cleanup a s) = cleanup a s
  ∧ cleanup a (cleanup b s) = cleanup b (cleanup a s).
Proof.
  assert (Hcomp : ∀ x y, cleanup x (cleanup y s) = cleanup (x ∩ y) s).
  { intros x y. rewrite !cleanup_filter. unfold set_history. simpl.
    f_equal. rewrite map_filter_filter. apply map_filter_ext.
    intros k w _. simpl. set_solver. }
  split; [apply Hcomp |]. split.
  - rewrite Hcomp. by replace (a ∩ a) with a by set_solver.
  - rewrite !Hcomp. by replace (a ∩ b) with (b ∩ a) by set_solver.
Qed.

(** ** The green line is drawn once per registered count *)

Lemma counted_lines_app (a b : list draw) :
  counted_lines (a ++ b) = counted_lines a + counted_lines b.
Proof.
  induction a as [| dr a IH]; [done |].
  destruct dr; cbn [app counted_lines]; lia.
Qed.

Lemma detection_body_lines (line : Z) (d : detection) (s s' : shared)
    (l l' : locals) :
  detection_body line d (s, l) = Some (s', l') →
  counted_lines (overlay l') - counted_lines (overlay l)
  = sum_counts (cumulative_counts s') - sum_counts (cumulative_counts s).
Proof.
  unfold detection_body.
  destruct (TARGET_CLASSES !! cls d) as [name |].
  - destruct (box d) as [[[x y] w] h].
    destruct (track_and_count line (track_id d) name (x, y) s)
      as [[s1 drawn] |] eqn:Hrun; simpl; [| done].
    intros [= <- <-]. simpl. rewrite !counted_lines_app.
    apply track_and_count_cases in Hrun
      as (_ & _ & _ & [(-> & _ & ->) | (k & Hk & -> & _ & _ & ->)]).
    + simpl. lia.
    + rewrite (sum_counts_insert _ _ k) by done. simpl. lia.
  - intros [= <- <-]. lia.
Qed.

Lemma run_slots_lines (line : Z) (slots : list slot) (s s' : shared)
    (l l' : locals) :
  forallb quiet_slot slots = true →
  run_slots line slots (s, l) = Some (s', l') →
  counted_lines (overlay l') - counted_lines (overlay l)
  = sum_counts (cumulative_counts s') - sum_counts (cumulative_counts s).
Proof.
  revert s l. induction slots as [| sl slots IH]; intros s l Hq.
  - intros [= <- <-]. lia.
  - destruct sl as [d | req]; [| done]. cbn [run_slots].
    destruct (detection_body line d (s, l)) as [[s1 l1] |] eqn:Hd;
      simpl; [| done].
    intros Hrun. apply IH in Hrun; [| done].
    apply detection_body_lines in Hd. lia.
Qed.

(** X13. In a frame during which no upload is served, the overlay of the
    emitted image holds the green line exactly as many times as the sum of
    the counts went up over the frame: once for every crossing that was
    counted, and never otherwise. *)
Theorem X13_green_line_per_count (line n : Z) (slots : list slot)
    (s s' : shared) (out : video_data) :
  forallb quiet_slot slots = true →
  frame_body line n slots s = Some (s', out) →
  counted_lines (image out)
  = sum_counts (cumulative_counts s') - sum_counts (cumulative_counts s).
Proof.
  intros Hq. unfold frame_body.
  destruct (run_slots line slots _) as [[s1 l1] |] eqn:Hrun; simpl; [| done].
  unfold finish_frame.
  destruct (total_cumulative _) as [t |]; simpl; [| done].
  intros [= <- <-]. simpl.
  apply run_slots_lines in Hrun; [| done]. simpl in Hrun. lia.
Qed.

(** * Reset on the schedules of the loop *)






End Server.

(** * The model at concrete inputs *)

Ltac qcmp := first [reflexivity | (unfold Qle, Qlt; simpl; lia)].

(** The scenario of the specification: track 7, a Car, is seen at y = 95,
    then 105, then 110 with the line at 100; the count of Car is 1 after
    the second frame and still 1 after the third. *)
Example scenario_track_7 :
  ∃ sv outs,
    run plain_name posix_join disk_ok height_150
        [Connect;
         Iterate (Frame [Det (at_y 7 2 95)]);
         Iterate (Frame [Det (at_y 7 2 105)]);
         Iterate (Frame [Det (at_y 7 2 110)])]
        initial_server = Some (sv, outs)
    ∧ (λ o, counts o !! "Car") <$> outs = [Some 0; Some 1; Some 1]
    ∧ counted_ids (sh sv) = {[7]}.
Proof.
  eexists _, _. split; [vm_compute; reflexivity |].
  split; [reflexivity |]. by vm_compute.
Qed.

(** C2, the code at a failing input. A Motorcycle (class 3) crosses the
    line: its count is 1 in the emitted counts, whose sum is 1, while the
    total that is emitted as density and that selects the status is 0. *)
Theorem C2_total_omits_motorcycle :
  ∃ sv out1 out2,
    run plain_name posix_join disk_ok height_150
        [Connect;
         Iterate (Frame [Det (at_y 9 3 95)]);
         Iterate (Frame [Det (at_y 9 3 105)])]
        initial_server = Some (sv, [out1; out2])
    ∧ counts out2 !! "Motorcycle" = Some 1
    ∧ sum_counts (counts out2) = 1
    ∧ total_cumulative (counts out2) = Some 0
    ∧ density (data_status out2) = 0.
Proof.
  eexists _, _, _. split; [vm_compute; reflexivity |].
  repeat split; by vm_compute.
Qed.

(** C3, the claim as stated fails at total = 21: the message of HIGH is
    not the bare text. *)
Lemma C3_high_message_differs :
  message (traffic_status 21) ≠ "Heavy Traffic Volume".
Proof. vm_compute. discriminate. Qed.

Lemma C3_witness :
  traffic_status 10 = Status "LOW" "green" "Smooth Traffic Flow" 10
  ∧ traffic_status 11 = Status "MEDIUM" "orange" "Moderate Traffic Volume" 11
  ∧ traffic_status 20 = Status "MEDIUM" "orange" "Moderate Traffic Volume" 20
  ∧ traffic_status 21
    = Status "HIGH" "red" (siren +:+ " Heavy Traffic Volume") 21.
Proof.
  split; [| split; [| split]].
  - apply (C3_traffic_status_ranges 10); lia.
  - apply (C3_traffic_status_ranges 11); lia.
  - apply (C3_traffic_status_ranges 20); lia.
  - apply (C3_traffic_status_ranges 21); lia.
Defined.

Lemma C4_witness :
  crossing [(50, 95)%Q; (50, 105)%Q] 100 = true
  ∧ crossing [(50, 95)%Q] 100 = false
  ∧ ∃ s',
      track_and_count 100 7 "Car" (50, 95)%Q
        (Shared "traffic_video.mp4" false {[7 := [(50, 105)%Q]]}
                zero_counts ∅)
      = Some (s', [])
      ∧ cumulative_counts s' = zero_counts
      ∧ counted_ids s' = ∅.
Proof.
  destruct C4_crossing_downward_only as (Hiff & Hshort & Hup).
  split; [| split].
  - apply Hiff. exists [], (50, 95)%Q, (50, 105)%Q.
    split; [reflexivity |]. split; qcmp.
  - apply Hshort. simpl. lia.
  - apply (Hup 100 7 "Car" (50, 95)%Q (50, 105)%Q [(50, 105)%Q]);
      [reflexivity | reflexivity | qcmp].
Defined.


Lemma C6_witness :
  (∃ s' drawn,
     track_and_count 100 7 "Car" (50, 105)%Q
       (Shared "traffic_video.mp4" false {[7 := [(50, 95)%Q]]}
               zero_counts ∅)
     = Some (s', drawn)
     ∧ 0 ≤ sum_counts (cumulative_counts s'))
  ∧ (∃ sv outs sv' outs',
       run plain_name posix_join disk_ok height_150
           [Connect; Iterate (Frame [Det (at_y 7 2 95)])]
           initial_server = Some (sv, outs)
       ∧ run plain_name posix_join disk_ok height_150
             [Iterate (Frame [Det (at_y 7 2 105)]); Iterate ReadFail] sv
         = Some (sv', outs')
       ∧ sum_counts (cumulative_counts (sh sv))
         ≤ sum_counts (cumulative_counts (sh sv')))
  ∧ sum_counts (cumulative_counts (switch_source "uploads/b.mp4")) = 0
  ∧ sum_counts
      (cumulative_counts
         (reset_check height_150 (switch_source "uploads/b.mp4")
                      (start height_150 initial_shared)).1) = 0.
Proof.
  destruct (C6_sum_monotone_zero_after_reset plain_name posix_join disk_ok
              height_150) as (Hblock & _ & _ & Hepoch & Hreset).
  split; [| split].
  - eexists _, _. split; [vm_compute; reflexivity |].
    change 0 with (sum_counts zero_counts) at 1.
    eapply (Hblock 100 7 "Car" (50, 105)%Q
              (Shared "traffic_video.mp4" false {[7 := [(50, 95)%Q]]}
                      zero_counts ∅)).
    vm_compute. reflexivity.
  - apply Hepoch. reflexivity.
  - apply (Hreset (upload_of "b.mp4") initial_shared). reflexivity.
Defined.

Lemma C7_witness :
  (∃ s' drawn,
     track_and_count 100 7 "Car" (50, 105)%Q
       (Shared "traffic_video.mp4" false {[7 := [(50, 95)%Q]]}
               zero_counts ∅)
     = Some (s', drawn)
     ∧ track_history s' = {[7 := [(50, 95)%Q; (50, 105)%Q]]})
  ∧ length (append_bounded (replicate 30 (50, 95)%Q) (50, 105)%Q) = 30%nat.
Proof.
  destruct (C7_window_at_most_30 plain_name posix_join disk_ok height_150)
    as (Happend & Hblock & _).
  split.
  - eexists _, _. split; [vm_compute; reflexivity |].
    erewrite (Hblock 100 7 "Car" (50, 105)%Q
                (Shared "traffic_video.mp4" false {[7 := [(50, 95)%Q]]}
                        zero_counts ∅));
      [| vm_compute; reflexivity].
    by vm_compute.
  - rewrite Happend. reflexivity.
Defined.

Lemma C8_witness :
  track_history
    (cleanup {[1; 3]}
       (Shared "traffic_video.mp4" false
               {[1 := [(50, 95)%Q]; 2 := [(60, 40)%Q]]}
               zero_counts {[2]})) !! 1
  = Some [(50, 95)%Q]
  ∧ track_history
      (cleanup {[1; 3]}
         (Shared "traffic_video.mp4" false
                 {[1 := [(50, 95)%Q]; 2 := [(60, 40)%Q]]}
                 zero_counts {[2]})) !! 2
    = None
  ∧ counted_ids
      (cleanup {[1; 3]}
         (Shared "traffic_video.mp4" false
                 {[1 := [(50, 95)%Q]; 2 := [(60, 40)%Q]]}
                 zero_counts {[2]}))
    = {[2]}.
Proof.
  destruct (C8_cleanup_frame {[1; 3]}
              (Shared "traffic_video.mp4" false
                      {[1 := [(50, 95)%Q]; 2 := [(60, 40)%Q]]}
                      zero_counts {[2]}))
    as (Hdom & Hkeep & Hids & _).
  split; [| split].
  - rewrite Hkeep; [reflexivity |]. apply elem_of_union_l.
    by apply elem_of_singleton_2.
  - apply not_elem_of_dom. intros Hin. apply Hdom in Hin.
    apply elem_of_union in Hin as [Hin | Hin];
      apply elem_of_singleton_1 in Hin; discriminate Hin.
  - exact Hids.
Defined.

Lemma C9_witness :
  ∃ s' out,
    frame_body plain_name posix_join disk_ok 100
               (vehicle_count [2; 3]) [Det (at_y 7 2 105); Det (at_y 8 3 60)]
               busy
    = Some (s', out)
    ∧ (∃ car bus truck person bicycle,
         counts out !! "Car" = Some car
         ∧ counts out !! "Bus" = Some bus
         ∧ counts out !! "Truck" = Some truck
         ∧ counts out !! "Person" = Some person
         ∧ counts out !! "Bicycle" = Some bicycle
         ∧ density (data_status out) = car + bus + truck + person + bicycle)
    ∧ counts out !! "Car" = Some 4
    ∧ counts out !! "Motorcycle" = Some 4
    ∧ density (data_status out) = 6
    ∧ vehicle_count [2; 3] = 2.
Proof.
  destruct (C9_density_is_cumulative_total plain_name posix_join disk_ok
              height_150) as (Hrecord & _ & _).
  destruct (frame_body plain_name posix_join disk_ok 100
              (vehicle_count [2; 3]) [Det (at_y 7 2 105); Det (at_y 8 3 60)]
              busy) as [[s' out] |] eqn:Hf.
  - exists s', out. split; [reflexivity |].
    destruct (Hrecord 100 (vehicle_count [2; 3])
                [Det (at_y 7 2 105); Det (at_y 8 3 60)] busy s' out Hf)
      as (_ & Hsum & _).
    split; [exact Hsum |].
    vm_compute in Hf. injection Hf as _ <-.
    split; [reflexivity |]. split; [reflexivity |].
    split; reflexivity.
  - vm_compute in Hf. discriminate Hf.
Defined.

Lemma C10_witness :
  (∃ msg, upload_video plain_name posix_join disk_ok (Request ∅)
                       (switch_source "uploads/a.mp4")
          = (Json "error" msg 400, switch_source "uploads/a.mp4"))
  ∧ (∃ msg, upload_video plain_name posix_join disk_ok (upload_of "")
                         (switch_source "uploads/a.mp4")
            = (Json "error" msg 400, switch_source "uploads/a.mp4")).
Proof.
  split.
  - apply C10_rejected_upload_keeps_state. left. reflexivity.
  - apply C10_rejected_upload_keeps_state. right.
    exists (FileStorage ""). split; reflexivity.
Defined.

(** Class 9 is not a target class, and track 4 is not in the frame. *)
Lemma X5_witness :
  ∃ s' out,
    frame_body plain_name posix_join disk_ok 100 0
      [Det (at_y 7 2 50); Det (at_y 8 9 60); Det (at_y 9 3 70)]
      (Shared "traffic_video.mp4" false {[4 := [(50, 95)%Q]]} zero_counts ∅)
    = Some (s', out)
    ∧ dom (track_history s')
      = frame_ids [Det (at_y 7 2 50); Det (at_y 8 9 60); Det (at_y 9 3 70)]
    ∧ frame_ids [Det (at_y 7 2 50); Det (at_y 8 9 60); Det (at_y 9 3 70)]
      = {[7; 9]}.
Proof.
  destruct (frame_body plain_name posix_join disk_ok 100 0
              [Det (at_y 7 2 50); Det (at_y 8 9 60); Det (at_y 9 3 70)]
              (Shared "traffic_video.mp4" false {[4 := [(50, 95)%Q]]}
                      zero_counts ∅))
    as [[s' out] |] eqn:Hf.
  - exists s', out. split; [reflexivity |]. split; [| by vm_compute].
    eapply (X5_history_keys_after_frame plain_name posix_join disk_ok);
      [exact Hf | reflexivity].
  - vm_compute in Hf. discriminate Hf.
Defined.


Lemma X8_witness :
  (upload_video plain_name posix_join disk_full (upload_of "b.mp4")
                initial_shared).2
  = initial_shared.
Proof. apply X8_failed_upload_keeps_state. by vm_compute. Defined.

Lemma X9_witness :
  line_of (Capture "traffic_video.mp4" 720) = 480
  ∧ 0 ≤ line_of (Capture "traffic_video.mp4" 720) ≤ 720.
Proof.
  destruct (X9_line_inside_frame (Capture "traffic_video.mp4" 720))
    as (Heq & Hin & _); [simpl; lia |].
  split; [rewrite Heq; reflexivity | exact Hin].
Defined.

Lemma X11_witness :
  track_and_count 100 7 "Car" (50, 105)%Q initial_shared
  = Some (set_history (<[7 := [(50, 105)%Q]]> (track_history initial_shared))
                      initial_shared, []).
Proof. apply X11_first_detection_never_counts. reflexivity. Defined.

Lemma X13_witness :
  ∃ s' out,
    frame_body plain_name posix_join disk_ok 100 0
      [Det (at_y 7 2 105); Det (at_y 8 2 50)] two_tracks
    = Some (s', out)
    ∧ counted_lines (image out)
      = sum_counts (cumulative_counts s')
        - sum_counts (cumulative_counts two_tracks)
    ∧ counted_lines (image out) = 1.
Proof.
  destruct (frame_body plain_name posix_join disk_ok 100 0
              [Det (at_y 7 2 105); Det (at_y 8 2 50)] two_tracks)
    as [[s' out] |] eqn:Hf.
  - exists s', out. split; [reflexivity |]. split.
    + exact (X13_green_line_per_count plain_name posix_join disk_ok 100 0
               [Det (at_y 7 2 105); Det (at_y 8 2 50)] two_tracks s' out
               eq_refl Hf).
    + vm_compute in Hf. injection Hf as _ <-. reflexivity.
  - vm_compute in Hf. discriminate Hf.
Defined.


(** The scenario of the specification: two uploads, A then B, are served
    before the loop consumes either; one reset is pending, and the next
    iteration binds the capture to B with the flag clear and an empty
    history. *)
Example scenario_two_uploads :
  ∃ sv outs,
    run plain_name posix_join disk_ok height_150
        [Connect;
         Iterate (Frame [Det (at_y 1 2 95)]);
         Upload (upload_of "a.mp4");
         Upload (upload_of "b.mp4");
         Iterate ReadFail]
        initial_server = Some (sv, outs)
    ∧ video_needs_reset (sh sv) = false
    ∧ cap_source <$> (cap <$> worker sv) = Some "uploads/b.mp4"
    ∧ line_y <$> worker sv = Some 100
    ∧ track_history (sh sv) = ∅
    ∧ cumulative_counts (sh sv) = zero_counts.
Proof.
  eexists _, _. split; [vm_compute; reflexivity |].
  repeat split; by vm_compute.
Qed.
